(** * Route editor: placement of a manually added point, route listing, deletion

    A shallow embedding of [route_editor.py] (class [RouteEditor]).

    - Python floats are IEEE 754 binary64 values: Rocq's primitive [float],
      with its comparisons ([<?] is [False] as soon as one side is NaN).
    - A [datetime] is an integer count of microseconds (the resolution of
      Python's [datetime] and of the store's timestamps); a [timedelta] is a
      signed count of microseconds.  The range limits of [timedelta] and of
      [datetime] (years 1 to 9999) are modelled where an argument of a call
      reaches them: the lookback of [get_user_routes].  Stored timestamps
      are taken far enough from the end of year 9999 for the 30 and 5
      seconds the placement adds.
    - Exceptions are values of [exc]; the [points] table is a finite map from
      the primary key [id] to the row; a psycopg2 connection works on a copy of
      the table that [commit] publishes.  The store is reachable, and of its
      statements only an [INSERT] can fail, on a duplicate key.
    - [math.sin], [math.cos] and [math.atan2] are parameters of the placement:
      nothing is assumed of the values they return or of the domain errors
      they raise.  The runs that depend on their values use the values the
      C library returns at the arguments of the run.
    - A float is stored as the statement gives it; what the database adapter
      and the column type make of it is not modelled. *)

From Stdlib Require Import ZArith Floats Lia.
From stdpp Require Import base option list gmap sorting strings.

Local Open Scope Z_scope.

(** ** Exceptions *)

Inductive exn : Type :=
  | IndexError        (* list index out of range *)
  | ValueError        (* math domain error *)
  | IntegrityError    (* the store rejects a statement *)
  | OverflowError.    (* a date or a duration out of range *)

Inductive exc (A : Type) : Type :=
  | OK (a : A)
  | Raise (e : exn).
Arguments OK {A} a.
Arguments Raise {A} e.

Definition bind {A B : Type} (c : exc A) (k : A -> exc B) : exc B :=
  match c with
  | OK a => k a
  | Raise e => Raise e
  end.

Notation "x <~ c ;; k" := (bind c (fun x => k))
  (at level 100, c at next level, right associativity).

(** [for x in xs: acc = body(acc, x)], stopping at the first exception. *)
Fixpoint for_each {A S : Type} (body : S -> A -> exc S) (xs : list A) (acc : S)
  : exc S :=
  match xs with
  | [] => OK acc
  | x :: xs' => acc' <~ body acc x ;; for_each body xs' acc'
  end.

(** ** Python lists *)

Definition len {A : Type} (l : list A) : Z := Z.of_nat (length l).

(** [l[i]]: negative indices count from the end, anything out of range raises
    [IndexError]. *)
Definition py_index {A : Type} (l : list A) (i : Z) : exc A :=
  let j := if i <? 0 then len l + i else i in
  if j <? 0 then Raise IndexError
  else match l !! Z.to_nat j with
       | Some x => OK x
       | None => Raise IndexError
       end.

(** [range(n)] *)
Definition range (n : Z) : list Z := Z.of_nat <$> seq 0 (Z.to_nat n).

(** ** Dates and times *)

Abbreviation datetime := Z (only parsing).
Abbreviation timedelta := Z (only parsing).

Definition seconds (n : Z) : timedelta := n * 1000000.
Definition days (n : Z) : timedelta := n * 86400000000.

(** [timedelta(days=n)]: at most 999999999 days either way. *)
Definition timedelta_of_days (n : Z) : exc timedelta :=
  if Z.abs n <=? 999999999 then OK (days n) else Raise OverflowError.

(** [datetime.min] and [datetime.max]: the first microsecond of year 1 and
    the last of year 9999. *)
Definition datetime_min : datetime := -62135596800000000.
Definition datetime_max : datetime := 253402300799999999.

(** [t - d] on a [datetime] and a [timedelta]. *)
Definition datetime_sub (t : datetime) (d : timedelta) : exc datetime :=
  let r := t - d in
  if (datetime_min <=? r) && (r <=? datetime_max) then OK r
  else Raise OverflowError.

(** [datetime._divide_and_round]: division rounding to the nearest integer,
    ties to even; this is [timedelta / int]. *)
Definition divide_and_round (a b : Z) : Z :=
  let q := a `div` b in
  let r := a `mod` b in
  let r := r * 2 in
  let greater_than_half := if 0 <? b then b <? r else r <? b in
  if greater_than_half || ((r =? b) && (q `mod` 2 =? 1)) then q + 1 else q.

Definition timedelta_truediv (d : timedelta) (n : Z) : timedelta :=
  divide_and_round d n.

(** [recorded_at.isoformat()] is kept as the instant it denotes:
    [datetime.fromisoformat] reads back what [isoformat] printed, and
    [.replace('Z', '+00:00')] finds no [Z] in it. *)
Inductive isostring : Type := IsoFormat (t : datetime).

Definition isoformat (t : datetime) : isostring := IsoFormat t.
Definition replace_Z (s : isostring) : isostring := s.
Definition fromisoformat (s : isostring) : datetime :=
  match s with IsoFormat t => t end.

(** Calendar date of an instant, as a day number ([DATE(recorded_at)]). *)
Definition DATE (t : datetime) : Z := t `div` 86400000000.

(** ** Floats *)

(** [math.radians]: multiplication by [pi / 180]. *)
Definition degToRad : float := 0x1.1df46a2529d39p-6%float.
Definition math_radians (x : float) : float := (x * degToRad)%float.

(** [math.sqrt]: a negative argument is a domain error. *)
Definition math_sqrt (x : float) : exc float :=
  if (x <? 0)%float then Raise ValueError else OK (PrimFloat.sqrt x).

(** Truth value of an [Optional[float]]: [None] and zero are false. *)
Definition truthy (x : option float) : bool :=
  match x with
  | None => false
  | Some v => negb (v =? 0)%float
  end.

(** [x or d] *)
Definition py_or (x : option float) (d : float) : float :=
  match x with
  | Some v => if truthy x then v else d
  | None => d
  end.

(** ** The store *)

(** A row of the [points] table, without its primary key.  The columns
    [created_at] and [updated_at] are written with [NOW()] and never read. *)
Record point : Type := Point {
  user_id : Z;
  latitude : option float;
  longitude : option float;
  recorded_at : datetime;
  accuracy : option float;
  altitude : option float;
  speed : option float;
  battery : option float
}.

(** The table, the sequence that feeds [id], and whether the schema has a
    unique index on [(user_id, recorded_at)]. *)
Record database : Type := Database {
  points : gmap Z point;
  points_id_seq : Z;
  unique_user_time : bool
}.

(** The statements [add_point_to_route] and [delete_point] execute on the
    connection they open.  ([get_route_points] reads through a connection of
    its own, which it closes before it returns.) *)
Inductive statement : Type :=
  | SelectIdByUserTime (u : Z) (t : datetime)
  | InsertPoint (row : point)
  | DeletePoint (pid u : Z).

(** A connection: the committed database, the table as the open transaction
    sees it, and the statements executed so far. *)
Record connection : Type := Connection {
  committed : database;
  working : gmap Z point;
  id_seq : Z;
  executed : list statement
}.

Definition connect_db (db : database) : connection :=
  {| committed := db; working := points db; id_seq := points_id_seq db;
     executed := [] |}.

Definition commit (conn : connection) : connection :=
  {| committed := {| points := working conn; points_id_seq := id_seq conn;
                     unique_user_time := unique_user_time (committed conn) |};
     working := working conn; id_seq := id_seq conn;
     executed := executed conn |}.

Definition rollback (conn : connection) : connection :=
  {| committed := committed conn; working := points (committed conn);
     id_seq := id_seq conn; executed := executed conn |}.

(** [conn.close()]: what is not committed is lost; the sequence keeps the
    values it handed out. *)
Definition close (conn : connection) : database :=
  {| points := points (committed conn); points_id_seq := id_seq conn;
     unique_user_time := unique_user_time (committed conn) |}.

Definition log (s : statement) (conn : connection) : connection :=
  {| committed := committed conn; working := working conn;
     id_seq := id_seq conn; executed := executed conn ++ [s] |}.

(** Rows of [tbl] as (id, row) pairs satisfying [P]. *)
Definition rows_where (P : Z -> point -> bool) (tbl : gmap Z point)
  : list (Z * point) :=
  filter (fun kr => P kr.1 kr.2 = true) (map_to_list tbl).

Definition same_user_time (u : Z) (t : datetime) (_ : Z) (r : point) : bool :=
  (user_id r =? u) && (recorded_at r =? t).

(** [SELECT id FROM points WHERE user_id = %s AND recorded_at = %s], then
    [fetchone()]. *)
Definition select_id_by_user_time (u : Z) (t : datetime) (conn : connection)
  : option Z * connection :=
  (fst <$> head (rows_where (same_user_time u t) (working conn)),
   log (SelectIdByUserTime u t) conn).

(** [INSERT INTO points (...) VALUES (...) RETURNING id], then
    [fetchone()[0]].  The id comes from the sequence; the statement fails on a
    duplicate key. *)
Definition insert_point (row : point) (conn : connection)
  : exc Z * connection :=
  let pid := id_seq conn in
  let conn := {| committed := committed conn; working := working conn;
                 id_seq := pid + 1;
                 executed := executed conn ++ [InsertPoint row] |} in
  let dup_key := bool_decide (is_Some (working conn !! pid)) in
  let dup_time :=
    unique_user_time (committed conn) &&
    bool_decide (rows_where (same_user_time (user_id row) (recorded_at row))
                            (working conn) ≠ []) in
  if dup_key || dup_time then (Raise IntegrityError, conn)
  else (OK pid,
        {| committed := committed conn;
           working := <[pid := row]> (working conn);
           id_seq := id_seq conn; executed := executed conn |}).

(** [DELETE FROM points WHERE id = %s AND user_id = %s RETURNING id], then
    [fetchone()]. *)
Definition delete_where_id_user (pid u : Z) (conn : connection)
  : option Z * connection :=
  let conn := log (DeletePoint pid u) conn in
  match working conn !! pid with
  | Some r =>
      if user_id r =? u
      then (Some pid,
            {| committed := committed conn;
               working := delete pid (working conn);
               id_seq := id_seq conn; executed := executed conn |})
      else (None, conn)
  | None => (None, conn)
  end.

(** ** Route queries *)

(** One dictionary of [get_route_points]: the coordinates are not null there,
    and [recorded_at] is already an ISO string. *)
Record route_point : Type := RoutePoint {
  pt_id : Z;
  pt_latitude : float;
  pt_longitude : float;
  pt_recorded_at : isostring;
  pt_accuracy : option float;
  pt_altitude : option float;
  pt_speed : option float;
  pt_battery : option float
}.

Definition has_coordinates (r : point) : bool :=
  bool_decide (is_Some (latitude r)) && bool_decide (is_Some (longitude r)).

Definition on_route (u d : Z) (_ : Z) (r : point) : bool :=
  (user_id r =? u) && (DATE (recorded_at r) =? d) && has_coordinates r.

(** [ORDER BY recorded_at ASC] *)
Definition earlier (a b : Z * point) : Prop :=
  recorded_at a.2 <= recorded_at b.2.

Global Instance earlier_dec a b : Decision (earlier a b) := Z.le_dec _ _.

Definition to_route_point (kr : Z * point) : option route_point :=
  lat ← latitude kr.2;
  lon ← longitude kr.2;
  Some {| pt_id := kr.1; pt_latitude := lat; pt_longitude := lon;
          pt_recorded_at := isoformat (recorded_at kr.2);
          pt_accuracy := accuracy kr.2; pt_altitude := altitude kr.2;
          pt_speed := speed kr.2; pt_battery := battery kr.2 |}.

(** [get_route_points]: the user's points of one date that have coordinates,
    by ascending time.  [route_date] is the day number the date string
    denotes. *)
Definition get_route_points (db : database) (user_id route_date : Z)
  : list route_point :=
  omap to_route_point
    (merge_sort earlier (rows_where (on_route user_id route_date) (points db))).

(** ** Results of the operations *)

(** What an operation hands back: the returned dictionary or the exception
    that escapes, the database afterwards, and the statements it executed on
    its own connection. *)
Record outcome (A : Type) : Type := Outcome {
  returned : exc A;
  db_after : database;
  statements : list statement
}.
Arguments Outcome {A}.
Arguments returned {A}.
Arguments db_after {A}.
Arguments statements {A}.

(** The text of an error: a literal of the source, or [str(e)]. *)
Inductive message : Type :=
  | Literal (s : string)
  | StrOf (e : exn).

(** The dictionaries the operations return. *)
Inductive result : Type :=
  | PointAdded (point_id : Z) (timestamp : isostring) (msg : message)
  | PointDeleted (msg : message)
  | Failure (error : message).

Definition finish (r : result) (conn : connection) : outcome result :=
  {| returned := OK r; db_after := close conn; statements := executed conn |}.

(** The row of a manually added point. *)
Definition manual_point (user_id : Z) (latitude longitude : float)
    (timestamp : datetime) (accuracy altitude : option float) : point :=
  {| user_id := user_id; latitude := Some latitude;
     longitude := Some longitude; recorded_at := timestamp;
     accuracy := Some (py_or accuracy 20);
     altitude := altitude; speed := None; battery := None |}.

(** ** Placement *)

Section Placement.

(** The C library behind [math.sin], [math.cos] and [math.atan2], with the
    domain errors Python raises. *)
Variable math_sin : float -> exc float.
Variable math_cos : float -> exc float.
Variable math_atan2 : float -> float -> exc float.

Definition haversine_distance (lat1 lon1 lat2 lon2 : float) : exc float :=
  let R := 6371000%float in
  let lat1_rad := math_radians lat1 in
  let lat2_rad := math_radians lat2 in
  let delta_lat := math_radians (lat2 - lat1)%float in
  let delta_lon := math_radians (lon2 - lon1)%float in
  s1 <~ math_sin (delta_lat / 2)%float ;;
  s2 <~ math_sin (delta_lat / 2)%float ;;
  c1 <~ math_cos lat1_rad ;;
  c2 <~ math_cos lat2_rad ;;
  s3 <~ math_sin (delta_lon / 2)%float ;;
  s4 <~ math_sin (delta_lon / 2)%float ;;
  let a := (s1 * s2 + c1 * c2 * s3 * s4)%float in
  y <~ math_sqrt a ;;
  x <~ math_sqrt (1 - a)%float ;;
  t <~ math_atan2 y x ;;
  let c := (2 * t)%float in
  OK (R * c)%float.

(** The penalty of the gap between [points[i]] and [points[i + 1]]: the body
    of the loop up to [distance_penalty]. *)
Definition distance_penalty (points : list route_point)
    (latitude longitude : float) (i : Z) : exc float :=
  point1 <~ py_index points i ;;
  point2 <~ py_index points (i + 1) ;;
  dist1 <~ haversine_distance latitude longitude
             (pt_latitude point1) (pt_longitude point1) ;;
  dist2 <~ haversine_distance latitude longitude
             (pt_latitude point2) (pt_longitude point2) ;;
  original_dist <~ haversine_distance
             (pt_latitude point1) (pt_longitude point1)
             (pt_latitude point2) (pt_longitude point2) ;;
  OK (dist1 + dist2 - original_dist)%float.

(** One turn of the loop on the pair [(best_position, min_distance_sum)]. *)
Definition scan_gap (points : list route_point) (latitude longitude : float)
    (st : Z * float) (i : Z) : exc (Z * float) :=
  penalty <~ distance_penalty points latitude longitude i ;;
  if (penalty <? st.2)%float then OK (i, penalty) else OK st.

(** The loop [for i in range(len(points) - 1)], from
    [best_position = 0], [min_distance_sum = float('inf')]. *)
Definition best_gap (points : list route_point) (latitude longitude : float)
  : exc (Z * float) :=
  for_each (scan_gap points latitude longitude)
           (range (len points - 1)) (0, infinity).

(** The timestamp between [points[best_position]] and the next point. *)
Definition midpoint_timestamp (points : list route_point) (best_position : Z)
  : exc datetime :=
  point1 <~ py_index points best_position ;;
  point2 <~ py_index points (best_position + 1) ;;
  let time1 := fromisoformat (replace_Z (pt_recorded_at point1)) in
  let time2 := fromisoformat (replace_Z (pt_recorded_at point2)) in
  let time_diff := time2 - time1 in
  OK (time1 + timedelta_truediv time_diff 2).

(** [find_insertion_timestamp] once the route is fetched. *)
Definition insertion_timestamp (points : list route_point)
    (latitude longitude : float) : exc datetime :=
  if len points <? 2 then
    last <~ py_index points (-1) ;;
    OK (fromisoformat (replace_Z (pt_recorded_at last)) + seconds 30)
  else
    st <~ best_gap points latitude longitude ;;
    midpoint_timestamp points st.1.

Definition find_insertion_timestamp (db : database) (user_id route_date : Z)
    (latitude longitude : float) : exc datetime :=
  insertion_timestamp (get_route_points db user_id route_date)
                      latitude longitude.

Definition add_point_to_route (db : database) (user_id route_date : Z)
    (latitude longitude : float) (altitude accuracy : option float)
  : outcome result :=
  match find_insertion_timestamp db user_id route_date latitude longitude with
  | Raise e => {| returned := Raise e; db_after := db; statements := [] |}
  | OK timestamp =>
      let conn := connect_db db in
      let (existing, conn) := select_id_by_user_time user_id timestamp conn in
      let timestamp :=
        if bool_decide (is_Some existing) then timestamp + seconds 5
        else timestamp in
      let (inserted, conn) :=
        insert_point (manual_point user_id latitude longitude timestamp
                                   accuracy altitude) conn in
      match inserted with
      | OK point_id =>
          let conn := commit conn in
          finish (PointAdded point_id (isoformat timestamp)
                             (Literal "Point added successfully")) conn
      | Raise e =>
          let conn := rollback conn in
          finish (Failure (StrOf e)) conn
      end
  end.

End Placement.

Definition delete_point (db : database) (user_id point_id : Z)
  : outcome result :=
  let conn := connect_db db in
  let (deleted_point, conn) := delete_where_id_user point_id user_id conn in
  if bool_decide (is_Some deleted_point) then
    let conn := commit conn in
    finish (PointDeleted (Literal "Point deleted successfully")) conn
  else
    finish (Failure (Literal "Point not found or not authorized")) conn.

(** ** Route listing *)

(** PostgreSQL's order on [double precision]: NaN is above every number. *)
Definition float8_lt (a b : float) : bool :=
  negb (is_nan a) && (is_nan b || (a <? b)%float).
Definition float8_smaller (a b : float) : float :=
  if float8_lt a b then a else b.
Definition float8_larger (a b : float) : float :=
  if float8_lt b a then a else b.

(** [MIN] and [MAX] skip nulls and are null on no value. *)
Definition aggregate {A : Type} (f : A -> A -> A) (xs : list (option A))
  : option A :=
  match omap id xs with
  | [] => None
  | x :: rest => Some (foldl f x rest)
  end.

Record route_summary : Type := RouteSummary {
  route_date : Z;
  point_count : Z;
  start_time : option datetime;
  end_time : option datetime;
  min_lat : option float;
  max_lat : option float;
  min_lon : option float;
  max_lon : option float
}.

(** The select list, over the rows of one group. *)
Definition summarize (d : Z) (group : list point) : route_summary :=
  {| route_date := d;
     point_count := len group;
     start_time := aggregate Z.min (Some ∘ recorded_at <$> group);
     end_time := aggregate Z.max (Some ∘ recorded_at <$> group);
     min_lat := aggregate float8_smaller (latitude <$> group);
     max_lat := aggregate float8_larger (latitude <$> group);
     min_lon := aggregate float8_smaller (longitude <$> group);
     max_lon := aggregate float8_larger (longitude <$> group) |}.

Definition in_window (u : Z) (cutoff_date : datetime) (_ : Z) (r : point)
  : bool :=
  (user_id r =? u) && (cutoff_date <=? recorded_at r) && has_coordinates r.

(** [ORDER BY route_date DESC] *)
Definition more_recent (a b : route_summary) : Prop :=
  route_date b <= route_date a.

Global Instance more_recent_dec a b : Decision (more_recent a b) :=
  Z.le_dec _ _.

(** The query of [get_user_routes], with its parameters
    [(user_id, cutoff_date)]: [GROUP BY DATE(recorded_at)],
    [HAVING COUNT( * ) >= 5], [ORDER BY route_date DESC]. *)
Definition select_routes (db : database) (user_id : Z)
    (cutoff_date : datetime) : list route_summary :=
  let rows := (rows_where (in_window user_id cutoff_date) (points db)).*2 in
  let dates := remove_dups (DATE ∘ recorded_at <$> rows) in
  let groups :=
    (fun d => summarize d (filter (fun r => DATE (recorded_at r) = d) rows))
      <$> dates in
  let having := filter (fun s => 5 <= point_count s) groups in
  merge_sort more_recent having.

(** [get_user_routes]; [now] is the reading of the clock by
    [datetime.now()]. *)
Definition get_user_routes (db : database) (now : datetime)
    (user_id days_back : Z) : exc (list route_summary) :=
  delta <~ timedelta_of_days days_back ;;
  cutoff_date <~ datetime_sub now delta ;;
  OK (select_routes db user_id cutoff_date).

(** ** Users *)

(** A row of the [users] table, without its primary key. *)
Record user : Type := User {
  email : option string;
  first_name : option string;
  last_name : option string
}.

(** One dictionary of [get_users]. *)
Record user_entry : Type := UserEntry {
  entry_id : Z;
  entry_email : option string;
  display_name : option string
}.

Global Instance user_entry_eq_dec : EqDecision user_entry.
Proof. solve_decision. Defined.

(** SQL's [||]: null as soon as one operand is null. *)
Definition sql_concat (a b : option string) : option string :=
  x ← a; y ← b; Some (x +:+ y).

Definition COALESCE {A : Type} (a b : option A) : option A :=
  match a with
  | Some _ => a
  | None => b
  end.

Definition to_user_entry (kr : Z * user) : user_entry :=
  {| entry_id := kr.1;
     entry_email := email kr.2;
     display_name :=
       COALESCE (sql_concat (sql_concat (first_name kr.2) (Some " "))
                            (last_name kr.2))
                (email kr.2) |}.

(** [id IN (SELECT DISTINCT user_id FROM points)] *)
Definition owns_a_point (tbl : gmap Z point) (id : Z) : bool :=
  bool_decide (rows_where (fun _ r => user_id r =? id) tbl ≠ []).

Section Users.

(** The order of the database's collation on text. *)
Variable collate : string -> string -> Prop.
Context `{!RelDecision collate}.

(** [ORDER BY display_name]: ascending, nulls last. *)
Definition by_display_name (a b : user_entry) : Prop :=
  match display_name a, display_name b with
  | Some x, Some y => collate x y
  | None, Some _ => False
  | _, None => True
  end.

Global Instance by_display_name_dec a b : Decision (by_display_name a b).
Proof.
  unfold by_display_name.
  destruct (display_name a), (display_name b); apply _.
Defined.

(** [get_users]: the users that own a point, with their display name. *)
Definition get_users (users : gmap Z user) (db : database)
  : list user_entry :=
  merge_sort by_display_name
    (remove_dups
       (to_user_entry
          <$> filter (fun kr => owns_a_point (points db) kr.1 = true)
                     (map_to_list users))).

End Users.

(** ** The DELETE route *)

(** What a view hands to the transport: the JSON body and the status. *)
Inductive response_body : Type :=
  | JsonResult (r : result)
  | JsonError (error : message).

(** [result['success']] *)
Definition success (r : result) : bool :=
  match r with
  | Failure _ => false
  | _ => true
  end.

(** The view [delete_point] of
    [/api/users/<int:user_id>/points/<int:point_id>]: the [int] converter
    matches digits only, so the view is called with natural numbers (any
    other path is answered by the router, not by this view). *)
Definition delete_point_view (db : database) (user_id point_id : N)
  : response_body * Z * database :=
  let o := delete_point db (Z.of_N user_id) (Z.of_N point_id) in
  match returned o with
  | OK r =>
      if success r then (JsonResult r, 200, db_after o)
      else (JsonResult r, 400, db_after o)
  | Raise e => (JsonError (StrOf e), 500, db_after o)
  end.

(** * Vocabulary of the statements *)


Definition increasing (points : list route_point) : Prop :=
  forall (i : nat) p q,
    points !! i = Some p -> points !! S i = Some q ->
    fromisoformat (pt_recorded_at p) < fromisoformat (pt_recorded_at q).

Definition collides (db : database) (u : Z) (ts : datetime) : bool :=
  bool_decide
    (is_Some (fst <$> head (rows_where (same_user_time u ts) (points db)))).

Definition not_found : result :=
  Failure (Literal "Point not found or not authorized").

(** The rule of the placement as it is described: the great-circle distance
    between two coordinates by the haversine formula, on a sphere of radius
    6,371,000 m, and the penalty of placing the new point between [p] and
    [q], (dist_to_prev + dist_to_next) - original_gap. *)
Section Rule.

Variable math_sin : float -> exc float.
Variable math_cos : float -> exc float.
Variable math_atan2 : float -> float -> exc float.

Definition great_circle_distance (lat1 lon1 lat2 lon2 : float) : exc float :=
  sin_half_dlat <~ math_sin (math_radians (lat2 - lat1) / 2)%float ;;
  cos_lat1 <~ math_cos (math_radians lat1) ;;
  cos_lat2 <~ math_cos (math_radians lat2) ;;
  sin_half_dlon <~ math_sin (math_radians (lon2 - lon1) / 2)%float ;;
  let a := (sin_half_dlat * sin_half_dlat
            + cos_lat1 * cos_lat2 * sin_half_dlon * sin_half_dlon)%float in
  root <~ math_sqrt a ;;
  coroot <~ math_sqrt (1 - a)%float ;;
  angle <~ math_atan2 root coroot ;;
  OK (6371000 * (2 * angle))%float.


End Rule.

(** The store's order on the specification of floats. *)
Definition SFlt (a b : spec_float) : bool :=
  negb (negb (SFeqb a a)) && (negb (SFeqb b b) || SFltb a b).

(** The filter of the listing on the date [d], through the filter of the
    query. *)
Definition counted (u : Z) (cutoff_date : datetime) (d : Z) (_ : Z)
    (r : point) : bool :=
  in_window u cutoff_date 0 r && (DATE (recorded_at r) =? d).

(** A point that counts for the date [d] in a listing: a point of user [u]
    with a latitude and a longitude, recorded on the date [d], at or after
    the instant [cutoff_date]. *)
Definition qualifies (u : Z) (cutoff_date : datetime) (d : Z) (r : point)
  : Prop :=
  user_id r = u /\
  latitude r <> None /\ longitude r <> None /\
  DATE (recorded_at r) = d /\
  cutoff_date <= recorded_at r.

Global Instance qualifies_dec u cutoff_date d r :
  Decision (qualifies u cutoff_date d r).
Proof. unfold qualifies. apply _. Defined.

(** The rows of the table that count for the date [d]. *)
Definition qualifying (db : database) (u : Z) (cutoff_date : datetime)
    (d : Z) : list point :=
  filter (qualifies u cutoff_date d) (map_to_list (points db)).*2.

(** The points of user [u] with coordinates on the date [d], whatever the
    time of day. *)
Definition points_on_date (db : database) (u d : Z) : list point :=
  filter (fun r => user_id r = u /\ latitude r <> None /\
                   longitude r <> None /\ DATE (recorded_at r) = d)
         (map_to_list (points db)).*2.

(** The lookback for which [now - timedelta(days=days_back)] is a
    [datetime]. *)
Definition representable (now : datetime) (days_back : Z) : Prop :=
  -999999999 <= days_back <= 999999999 /\
  datetime_min <= now - days days_back <= datetime_max.

(** The box of a column of coordinates: two values of the column that no
    value of the column is below, respectively above, in the store's order. *)
Definition bounds (col : point -> option float) (group : list point)
    (lo hi : option float) : Prop :=
  exists a b, lo = Some a /\ hi = Some b /\
              Some a ∈ col <$> group /\ Some b ∈ col <$> group /\
              forall r x, r ∈ group -> col r = Some x ->
                          float8_lt x a = false /\ float8_lt b x = false.

(** The store refuses the row. *)
Definition refused (db : database) (row : point) : bool :=
  bool_decide (is_Some (points db !! points_id_seq db))
  || unique_user_time db
     && bool_decide (rows_where (same_user_time (user_id row)
                                                (recorded_at row))
                                (points db) ≠ []).

(** ** Sample routes *)

(** The statements above hold whatever [math.sin], [math.cos] and
    [math.atan2] compute.  To run the operations on sample routes we take
    their first-order expansions at zero, which raise nothing. *)
Definition sin_1 (x : float) : exc float := OK x.
Definition cos_1 (x : float) : exc float := OK 1%float.
Definition atan2_1 (y x : float) : exc float := OK (y / x)%float.

(** A function on floats given by finitely many of its values, found by the
    bit pattern of the argument; the table says nothing elsewhere (NaN, and
    no domain error). *)
Fixpoint tabulated (table : list (float * float)) (x : float) : exc float :=
  match table with
  | [] => OK nan
  | (k, v) :: rest =>
      if PrimFloat.Leibniz.eqb k x then OK v else tabulated rest x
  end.

Fixpoint tabulated2 (table : list (float * float * float)) (y x : float)
  : exc float :=
  match table with
  | [] => OK nan
  | (k1, k2, v) :: rest =>
      if PrimFloat.Leibniz.eqb k1 y && PrimFloat.Leibniz.eqb k2 x then OK v
      else tabulated2 rest y x
  end.

(** [math.sin], [math.cos] and [math.atan2] as the C library (glibc, x86-64)
    computes them, at the arguments met when the point (0, 0.3) is placed on
    the route (0, 0), (0, 1) and when the point (12, 174) is placed next to
    (-12, -6). *)
Definition libm_sin : float -> exc float :=
  tabulated
    [(0, 0);
     (-0x1.57254c2c98977p-9, -0x1.5725327c4160fp-9);
     (0x1.90562e34075b6p-8, 0x1.90558b082691ep-8);
     (0x1.1df46a2529d39p-7, 0x1.1df37c4954c21p-7);
     (-0x1.acee9f37bebd6p-3, -0x1.a9cd9ac4258f6p-3);
     (-0x1.921fb54442d18p+0, -1)]%float.

Definition libm_cos : float -> exc float :=
  tabulated
    [(0, 1);
     (0x1.acee9f37bebd6p-3, 0x1.f4cfc327a0080p-1);
     (-0x1.acee9f37bebd6p-3, 0x1.f4cfc327a0080p-1)]%float.

Definition libm_atan2 : float -> float -> exc float :=
  tabulated2
    [(0x1.5725327c4160fp-9, 0x1.ffff8d02c66a3p-1, 0x1.57254c2c98977p-9);
     (0x1.90558b082691ep-8, 0x1.fffd8df312302p-1, 0x1.90562e34075b6p-8);
     (0x1.1df37c4954c21p-7, 0x1.fffb02599c9cdp-1, 0x1.1df46a2529d39p-7)]%float.

Definition stop (id : Z) (lat lon : float) (t : datetime) : route_point :=
  {| pt_id := id; pt_latitude := lat; pt_longitude := lon;
     pt_recorded_at := isoformat t; pt_accuracy := None; pt_altitude := None;
     pt_speed := None; pt_battery := None |}.

Definition fix_at (u : Z) (coords : option (float * float)) (t : datetime)
  : point :=
  {| user_id := u; latitude := fst <$> coords; longitude := snd <$> coords;
     recorded_at := t; accuracy := None; altitude := None; speed := None;
     battery := None |}.

(** Three points on the equator, one minute apart from 12:00:00. *)
Definition straight_line : list route_point :=
  [stop 1 0 0 (seconds 43200); stop 2 0 1 (seconds 43260);
   stop 3 0 2 (seconds 43320)].


Definition line_minimum : float :=
  Eval vm_compute in
    match best_gap sin_1 cos_1 atan2_1 straight_line 0 0.5 with
    | OK st => st.2
    | Raise _ => nan
    end.

(** Two points on the equator, one degree and one minute apart, and a point
    between them at three tenths of a degree. *)
Definition degree_line : list route_point :=
  [stop 1 0 0 (seconds 43200); stop 2 0 1 (seconds 43260)].

Definition three_tenths : float := 0x1.3333333333333p-2%float.


(** Two points one microsecond apart. *)
Definition close_pair : list route_point := [stop 1 0 0 0; stop 2 0 1 1].

(** 2024-01-01 is day 19723; 10:00:00 that day is second 1704103200. *)
Definition user7 : database :=
  {| points := <[1 := fix_at 7 (Some (40, -74)%float) (seconds 1704103200)]>
               (<[2 := fix_at 7 (Some (40, -73)%float) (seconds 1704103800)]>
                ∅);
     points_id_seq := 3; unique_user_time := false |}.

(** The same with a row without coordinates at 10:05:00. *)
Definition user7_busy : database :=
  {| points := <[3 := fix_at 7 None (seconds 1704103500)]> (points user7);
     points_id_seq := 4; unique_user_time := false |}.

(** One point at 09:00:00. *)
Definition user9 : database :=
  {| points := {[1 := fix_at 9 (Some (40, -74)%float) (seconds 1704099600)]};
     points_id_seq := 2; unique_user_time := false |}.

Definition no_points : database :=
  {| points := ∅; points_id_seq := 1; unique_user_time := false |}.

(** The smallest penalty on the route of user 7 for the point (40, -73.5). *)
Definition user7_minimum : float :=
  Eval vm_compute in
    match best_gap sin_1 cos_1 atan2_1 (get_route_points user7 7 19723)
                   40 (-73.5) with
    | OK st => st.2
    | Raise _ => nan
    end.

(** Two points of user 7 four seconds apart, and a row without coordinates
    halfway. *)
Definition user7_tight : database :=
  {| points :=
       list_to_map
         [(1, fix_at 7 (Some (40, -74)%float) (seconds 1704103200));
          (2, fix_at 7 (Some (40, -73)%float) (seconds 1704103204));
          (3, fix_at 7 None (seconds 1704103202))];
     points_id_seq := 4; unique_user_time := false |}.

(** [user7_busy] with one more row without coordinates, at 10:05:05. *)
Definition user7_crowded : database :=
  {| points := <[4 := fix_at 7 None (seconds 1704103505)]>
                 (points user7_busy);
     points_id_seq := 5; unique_user_time := true |}.

(** One point of user 9 at 23:59:45 on 2024-01-01. *)
Definition late_walker : database :=
  {| points := {[1 := fix_at 9 (Some (40, -74)%float) (seconds 1704153585)]};
     points_id_seq := 2; unique_user_time := false |}.

(** Six points of user 7 on 2024-01-01, a minute apart from 10:00:00, and
    one point of user 8. *)
Definition user7_walk : database :=
  {| points :=
       list_to_map
         [(1, fix_at 7 (Some (40, -74)%float) (seconds 1704103200));
          (2, fix_at 7 (Some (40, -73.875)%float) (seconds 1704103260));
          (3, fix_at 7 (Some (40, -73.75)%float) (seconds 1704103320));
          (4, fix_at 7 (Some (40, -73.625)%float) (seconds 1704103380));
          (5, fix_at 7 (Some (40, -73.5)%float) (seconds 1704103440));
          (6, fix_at 7 (Some (40, -73.375)%float) (seconds 1704103500));
          (7, fix_at 8 (Some (41, -73.5)%float) (seconds 1704103500))];
     points_id_seq := 8; unique_user_time := false |}.

(** The listing of user 7 at 11:53:20 that day, looking one day back. *)
Definition walk_summary : route_summary :=
  match get_user_routes user7_walk (seconds 1704110000) 7 1 with
  | OK routes => default (summarize 0 []) (head routes)
  | Raise _ => summarize 0 []
  end.

(** Three accounts; the third owns no point. *)
Definition people : gmap Z user :=
  list_to_map
    [(7, {| email := Some "ada@example.org"; first_name := Some "Ada";
            last_name := Some "Lovelace" |});
     (8, {| email := Some "bob@example.org"; first_name := Some "Bob";
            last_name := None |});
     (9, {| email := Some "eve@example.org"; first_name := None;
            last_name := None |})].

(** Text compared byte by byte. *)
Definition bytewise (a b : string) : Prop := String.leb a b = true.

Global Instance bytewise_dec : RelDecision bytewise.
Proof. intros a b. unfold bytewise. apply _. Defined.

(** * Properties *)

(** ** Order of binary64 values *)

Module FloatOrder.

Ltac sf_cases :=
  unfold SFltb, SFeqb, SFleb, SFcompare;
  repeat match goal with
         | x : spec_float |- _ => destruct x as [[]|[]| |[] ? ?]
         end;
  cbn;
  repeat match goal with
         | |- context [Z.compare ?a ?b] =>
             let H := fresh in destruct (Z.compare_spec a b) as [H|H|H]; cbn
         | |- context [Pos.compare_cont Eq ?a ?b] =>
             change (Pos.compare_cont Eq a b) with (Pos.compare a b);
             let H := fresh in
             destruct (Pos.compare_spec a b) as [H|H|H]; cbn
         end;
  intros; try congruence; try lia.












End FloatOrder.

(** ** The sign of a difference of binary64 values *)

Module FloatSub.

Lemma binary_round_not_negative m e z :
  SFltb (binary_round prec emax false m e) (S754_zero z) = false.
Proof.
  unfold binary_round.
  destruct (shl_align m e _) as [mz ez]. unfold binary_round_aux.
  destruct (shr_fexp prec emax (Z.pos mz) ez loc_Exact) as [mrs' e'].
  destruct (shr_fexp prec emax _ e' loc_Exact) as [mrs'' e''].
  destruct (shr_m mrs''); [done| |done].
  by destruct (e'' <=? emax - prec).
Qed.

Lemma iter_xO m d : Z.pos (Pos.iter xO m d) = Z.pos m * 2 ^ Z.pos d.
Proof.
  induction d as [|d IH] using Pos.peano_ind.
  - simpl. lia.
  - rewrite Pos.iter_succ, Pos2Z.inj_succ, Z.pow_succ_r by lia.
    rewrite Pos2Z.inj_xO, IH. lia.
Qed.

Lemma shl_align_value m e e' :
  e' <= e -> Z.pos (shl_align m e e').1 = Z.pos m * 2 ^ (e - e').
Proof.
  intros He. unfold shl_align. destruct (e' - e) as [|d|d] eqn:E; simpl.
  - replace (e - e') with 0 by lia. lia.
  - lia.
  - rewrite iter_xO. f_equal. f_equal. lia.
Qed.

Lemma digits2_pos_bounds m :
  2 ^ (Z.pos (digits2_pos m) - 1) <= Z.pos m < 2 ^ Z.pos (digits2_pos m).
Proof.
  induction m as [m IH|m IH|]; simpl digits2_pos;
    rewrite ?Pos2Z.inj_succ.
  - replace (Z.succ (Z.pos (digits2_pos m)) - 1)
      with (Z.succ (Z.pos (digits2_pos m) - 1)) by lia.
    rewrite !Z.pow_succ_r by lia. lia.
  - replace (Z.succ (Z.pos (digits2_pos m)) - 1)
      with (Z.succ (Z.pos (digits2_pos m) - 1)) by lia.
    rewrite !Z.pow_succ_r by lia. lia.
  - simpl. lia.
Qed.

Lemma valid_finite s m e :
  valid_binary (S754_finite s m e) = true ->
  Z.pos m < 2 ^ 53 /\ -1074 <= e /\ (-1074 < e -> 2 ^ 52 <= Z.pos m).
Proof.
  unfold SpecFloat.valid_binary, bounded, canonical_mantissa, fexp,
    SpecFloat.emin, prec, emax.
  intros [Hc _]%andb_true_iff. apply Z.eqb_eq in Hc.
  pose proof (digits2_pos_bounds m) as [Hlo Hhi].
  split; [|split].
  - eapply Z.lt_le_trans; [exact Hhi|].
    apply Z.pow_le_mono_r; lia.
  - lia.
  - intros He.
    replace (Z.pos (digits2_pos m)) with 53 in Hlo by lia. exact Hlo.
Qed.

(** The magnitudes of two binary64 numbers, brought to the lower of their
    exponents, compare as the exponents do when these differ. *)
Lemma aligned_lt sx mx ex sy my ey :
  valid_binary (S754_finite sx mx ex) = true ->
  valid_binary (S754_finite sy my ey) = true ->
  ex < ey ->
  Z.pos (shl_align mx ex (ex `min` ey)).1
  < Z.pos (shl_align my ey (ex `min` ey)).1.
Proof.
  intros (Hx & Hex & _)%valid_finite (_ & _ & Hy)%valid_finite He.
  rewrite !shl_align_value by lia.
  replace (ex `min` ey) with ex by lia.
  replace (ex - ex) with 0 by lia.
  assert (Hpow : 2 ^ 1 <= 2 ^ (ey - ex)) by (apply Z.pow_le_mono_r; lia).
  assert (Hmy : 2 ^ 52 <= Z.pos my) by (apply Hy; lia).
  change (2 ^ 1) with 2 in Hpow. change (2 ^ 0) with 1.
  change (2 ^ 53) with (2 * 2 ^ 52) in Hx.
  set (k := 2 ^ 52) in *. assert (0 < k) by (unfold k; lia).
  clearbody k. nia.
Qed.

Lemma aligned_eq mx my e :
  (shl_align mx e (e `min` e)).1 = mx /\ (shl_align my e (e `min` e)).1 = my.
Proof.
  unfold shl_align. replace (e `min` e - e) with 0 by lia. done.
Qed.

(** A difference of binary64 numbers is below zero only when the first is
    below the second. *)
Lemma SFsub_negative x y :
  valid_binary x = true -> valid_binary y = true ->
  SFltb (SF64sub x y) (S754_zero false) = true -> SFltb x y = true.
Proof.
  intros Hx Hy.
  destruct x as [sx|sx| |sx mx ex], y as [sy|sy| |sy my ey];
    try (by destruct sx, sy); try (by destruct sx); try (by destruct sy);
    try done.
  unfold SF64sub, SFsub, binary_normalize.
  pose proof (aligned_lt sx mx ex sy my ey Hx Hy) as Hlt.
  pose proof (aligned_lt sy my ey sx mx ex Hy Hx) as Hgt.
  rewrite (Z.min_comm ey ex) in Hgt.
  pose proof (aligned_eq mx my ex) as [Hex Hey].
  set (X := (shl_align mx ex (ex `min` ey)).1) in *.
  set (Y := (shl_align my ey (ex `min` ey)).1) in *.
  destruct (cond_Zopp sx (Z.pos X) - cond_Zopp sy (Z.pos Y)) as [|d|d] eqn:D;
    [done|by rewrite binary_round_not_negative|].
  intros _. assert (HD : cond_Zopp sx (Z.pos X) - cond_Zopp sy (Z.pos Y) < 0)
    by (rewrite D; lia).
  clear D. unfold SFltb, SFcompare.
  destruct sx, sy; simpl in *; try done; try lia.
  - destruct (Z.compare_spec ex ey) as [->|He|He]; try done; [|lia].
    unfold X, Y in HD. rewrite Hex, Hey in HD.
    rewrite Pos.compare_cont_spec. simpl.
    destruct (Pos.compare_spec mx my); simpl; try done; lia.
  - destruct (Z.compare_spec ex ey) as [->|He|He]; try done; [|lia].
    unfold X, Y in HD. rewrite Hex, Hey in HD.
    rewrite Pos.compare_cont_spec. simpl.
    destruct (Pos.compare_spec mx my); simpl; try done; lia.
Qed.

Lemma sub_negative (x y : float) :
  (x - y <? 0)%float = true -> (x <? y)%float = true.
Proof.
  rewrite !FloatAxioms.ltb_spec, FloatAxioms.sub_spec.
  apply SFsub_negative; apply FloatAxioms.Prim2SF_valid.
Qed.

End FloatSub.

(** ** Loops and lists *)

Lemma for_each_invariant {A S : Type} (body : S -> A -> exc S)
    (I : nat -> S -> Prop) (xs : list A) (st st' : S) :
  (forall i x s s', xs !! i = Some x -> I i s -> body s x = OK s' ->
                    I (Datatypes.S i) s') ->
  I 0%nat st ->
  for_each body xs st = OK st' ->
  I (length xs) st'.
Proof.
  revert I st. induction xs as [|x xs IH]; intros I st Hstep H0 Hrun.
  - simpl in Hrun. by injection Hrun as <-.
  - simpl in Hrun. destruct (body st x) as [s1|e] eqn:Hb; [|done].
    simpl in Hrun.
    apply (IH (fun i => I (Datatypes.S i)) s1); [|by eapply (Hstep 0%nat)|done].
    intros i y s s' Hy. by apply (Hstep (Datatypes.S i)).
Qed.

Lemma for_each_returns {A S : Type} (body : S -> A -> exc S)
    (xs : list A) (st : S) :
  (forall x s, x ∈ xs -> exists s', body s x = OK s') ->
  exists st', for_each body xs st = OK st'.
Proof.
  revert st. induction xs as [|x xs IH]; intros st Hok; [by eexists|].
  destruct (Hok x st) as [s1 Hs1]; [left|].
  simpl. rewrite Hs1. simpl. apply IH. intros y s Hy. apply Hok. by right.
Qed.

Lemma range_lookup (n : Z) (i : nat) (x : Z) :
  range n !! i = Some x -> x = Z.of_nat i /\ 0 <= x < n.
Proof.
  unfold range. rewrite list_lookup_fmap. intros H.
  destruct (seq 0 (Z.to_nat n) !! i) as [k|] eqn:E; [|done].
  apply lookup_seq in E as [-> Hlt]. simpl in H. injection H as <-. lia.
Qed.

Lemma range_length (n : Z) : length (range n) = Z.to_nat n.
Proof. unfold range. by rewrite length_fmap, length_seq. Qed.

Lemma range_elem (n x : Z) : x ∈ range n -> 0 <= x < n.
Proof.
  intros [i Hi]%list_elem_of_lookup. by apply range_lookup in Hi as [_ ?].
Qed.

Lemma py_index_in_range {A : Type} (l : list A) (i : Z) :
  0 <= i < len l -> exists x, py_index l i = OK x /\ l !! Z.to_nat i = Some x.
Proof.
  intros Hi. unfold py_index, len in *.
  destruct (i <? 0) eqn:E; [lia|]. rewrite E.
  destruct (l !! Z.to_nat i) as [x|] eqn:Hl; [by exists x|].
  apply lookup_ge_None in Hl. lia.
Qed.

(** ** The gap chosen for a new point *)

Section PlacementProperties.

Variable math_sin : float -> exc float.
Variable math_cos : float -> exc float.
Variable math_atan2 : float -> float -> exc float.

Local Abbreviation distance_penalty' :=
  (distance_penalty math_sin math_cos math_atan2).
Local Abbreviation scan_gap' := (scan_gap math_sin math_cos math_atan2).
Local Abbreviation best_gap' := (best_gap math_sin math_cos math_atan2).
Local Abbreviation insertion_timestamp' :=
  (insertion_timestamp math_sin math_cos math_atan2).

Lemma scan_gap_cases points lat lon st i st' :
  scan_gap' points lat lon st i = OK st' ->
  exists p, distance_penalty' points lat lon i = OK p /\
            ((p <? st.2)%float = true /\ st' = (i, p) \/
             (p <? st.2)%float = false /\ st' = st).
Proof.
  unfold scan_gap. destruct (distance_penalty' points lat lon i) as [p|e];
    [|done]. simpl. intros H. exists p. split; [done|].
  destruct (p <? st.2)%float; injection H as <-; auto.
Qed.

Lemma insertion_timestamp_of_gap points lat lon b m :
  2 <= len points ->
  best_gap' points lat lon = OK (b, m) ->
  insertion_timestamp' points lat lon = midpoint_timestamp points b.
Proof.
  intros Hlen Hb. unfold insertion_timestamp.
  destruct (len points <? 2) eqn:E; [lia|]. by rewrite Hb.
Qed.

Lemma midpoint_timestamp_in_range points b :
  0 <= b <= len points - 2 ->
  exists p q,
    points !! Z.to_nat b = Some p /\ points !! Z.to_nat (b + 1) = Some q /\
    midpoint_timestamp points b
    = OK (fromisoformat (pt_recorded_at p)
          + divide_and_round (fromisoformat (pt_recorded_at q)
                              - fromisoformat (pt_recorded_at p)) 2).
Proof.
  intros Hb.
  destruct (py_index_in_range points b) as (p & Hp & Hlp); [lia|].
  destruct (py_index_in_range points (b + 1)) as (q & Hq & Hlq); [lia|].
  exists p, q. unfold midpoint_timestamp. by rewrite Hp, Hq.
Qed.

Lemma best_gap_position_range points lat lon b m :
  2 <= len points ->
  best_gap' points lat lon = OK (b, m) ->
  0 <= b <= len points - 2.
Proof.
  intros Hlen Hrun. unfold best_gap in Hrun.
  apply (for_each_invariant _
           (fun i st => st.1 = 0 \/ 0 <= st.1 < Z.of_nat i)) in Hrun.
  - rewrite range_length in Hrun. simpl in Hrun. lia.
  - intros i x s s' Hx Hs Hstep.
    apply range_lookup in Hx as [-> _].
    apply scan_gap_cases in Hstep as (p & _ & [[_ ->]|[_ ->]]); simpl; lia.
  - by left.
Qed.

(** The loop ends when every distance computation returns, whatever the
    values. *)
Lemma best_gap_returns points lat lon :
  (forall i, 0 <= i < len points - 1 ->
             exists p, distance_penalty' points lat lon i = OK p) ->
  exists st, best_gap' points lat lon = OK st.
Proof.
  intros Hpen. apply for_each_returns.
  intros x s Hx%range_elem. unfold scan_gap.
  destruct (Hpen x Hx) as [p ->]. simpl.
  destruct (p <? s.2)%float; by eexists.
Qed.

(** C9: for a route of at least two points, whatever the distance computations
    return (NaN or infinite penalties included), the loop ends, and the index
    it leaves in [best_position] is between [0] and [len(points) - 2], so that
    [points[best_position]] and [points[best_position + 1]] exist and the
    timestamp is computed without an [IndexError]. *)
Theorem best_position_in_bounds points lat lon :
  2 <= len points ->
  ((forall i, 0 <= i < len points - 1 ->
              exists p, distance_penalty' points lat lon i = OK p) ->
   exists b m, best_gap' points lat lon = OK (b, m)) /\
  forall b m,
    best_gap' points lat lon = OK (b, m) ->
    0 <= b <= len points - 2 /\
    (exists p q, py_index points b = OK p /\ py_index points (b + 1) = OK q) /\
    (exists ts, insertion_timestamp' points lat lon = OK ts).
Proof.
  intros Hlen. split.
  { intros Hpen. destruct (best_gap_returns points lat lon Hpen) as [[b m] H].
    by exists b, m. }
  intros b m Hrun.
  pose proof (best_gap_position_range _ _ _ _ _ Hlen Hrun) as Hb.
  split; [done|]. split.
  - destruct (py_index_in_range points b) as (p & Hp & _); [lia|].
    destruct (py_index_in_range points (b + 1)) as (q & Hq & _); [lia|].
    by exists p, q.
  - rewrite (insertion_timestamp_of_gap _ _ _ _ _ Hlen Hrun).
    destruct (midpoint_timestamp_in_range points b Hb) as (p & q & _ & _ & ->).
    by eexists.
Qed.


(** The distance of the code is the haversine formula of the description,
    and the penalty of gap [i] is the detour through the new point between
    [points[i]] and [points[i + 1]]. *)
Lemma haversine_distance_formula lat1 lon1 lat2 lon2 :
  haversine_distance math_sin math_cos math_atan2 lat1 lon1 lat2 lon2
  = great_circle_distance math_sin math_cos math_atan2 lat1 lon1 lat2 lon2.
Proof.
  unfold haversine_distance, great_circle_distance.
  destruct (math_sin (math_radians (lat2 - lat1) / 2)); [simpl|done].
  destruct (math_cos (math_radians lat1)); [simpl|done].
  destruct (math_cos (math_radians lat2)); [simpl|done].
  by destruct (math_sin (math_radians (lon2 - lon1) / 2)).
Qed.



(** ** The sign of the penalty *)

(** C5, as the code has it: the penalty of a gap is the binary64 value of
    (dist_to_prev + dist_to_next) - original_gap of the three haversine
    distances as they are computed, and it is below zero only when the
    computed sum dist_to_prev + dist_to_next is below the computed
    original_gap.  Nothing keeps the computed distances from that: they are
    rounded at every step. *)
Theorem penalty_negative_only_below_gap points lat lon i pen :
  distance_penalty' points lat lon i = OK pen ->
  exists p q dist_to_prev dist_to_next original_gap,
    py_index points i = OK p /\ py_index points (i + 1) = OK q /\
    great_circle_distance math_sin math_cos math_atan2 lat lon
      (pt_latitude p) (pt_longitude p) = OK dist_to_prev /\
    great_circle_distance math_sin math_cos math_atan2 lat lon
      (pt_latitude q) (pt_longitude q) = OK dist_to_next /\
    great_circle_distance math_sin math_cos math_atan2
      (pt_latitude p) (pt_longitude p) (pt_latitude q) (pt_longitude q)
    = OK original_gap /\
    pen = (dist_to_prev + dist_to_next - original_gap)%float /\
    ((pen <? 0)%float = true ->
     (dist_to_prev + dist_to_next <? original_gap)%float = true).
Proof.
  unfold distance_penalty.
  destruct (py_index points i) as [p|]; [simpl|done].
  destruct (py_index points (i + 1)) as [q|]; [simpl|done].
  rewrite haversine_distance_formula.
  destruct (great_circle_distance _ _ _ lat lon (pt_latitude p) _)
    as [d1|] eqn:E1; [simpl|done].
  rewrite haversine_distance_formula.
  destruct (great_circle_distance _ _ _ lat lon (pt_latitude q) _)
    as [d2|] eqn:E2; [simpl|done].
  rewrite haversine_distance_formula.
  destruct (great_circle_distance _ _ _ (pt_latitude p) _ _ _)
    as [d0|] eqn:E0; [simpl|done].
  intros [= <-]. exists p, q, d1, d2, d0. repeat split; try done.
  apply FloatSub.sub_negative.
Qed.

(** ** The synthesized timestamp *)

Lemma divide_and_round_half (d : Z) :
  let q := divide_and_round d 2 in
  -1 <= 2 * q - d <= 1 /\
  (d `mod` 2 = 0 -> 2 * q = d) /\
  (0 < d -> 0 <= q < d) /\
  (2 <= d -> 0 < q).
Proof.
  unfold divide_and_round.
  pose proof (Z.div_mod d 2 ltac:(lia)) as Hd.
  pose proof (Z.mod_pos_bound d 2 ltac:(lia)) as Hr.
  pose proof (Z.mod_pos_bound (d `div` 2) 2 ltac:(lia)) as Hq.
  pose proof (Z.div_mod (d `div` 2) 2 ltac:(lia)) as Hqq.
  change (0 <? 2) with true. cbv iota.
  destruct (2 <? d `mod` 2 * 2) eqn:E1;
    destruct (d `mod` 2 * 2 =? 2) eqn:E2;
    destruct ((d `div` 2) `mod` 2 =? 1) eqn:E3; simpl; lia.
Qed.

(** C2, as the code has it: on a route of at least two points with strictly
    increasing timestamps, the timestamp for the chosen gap is
    [t_prev + (t_next - t_prev) / 2] rounded to a whole microsecond, ties to
    even.  It is within half a microsecond of the midpoint, and is the
    midpoint when the neighbours are an even number of microseconds apart; it
    is never before [t_prev], always before [t_next], and after [t_prev] as
    soon as the neighbours are two microseconds apart or more. *)
Theorem midpoint_rounded_between points lat lon b m :
  2 <= len points ->
  increasing points ->
  best_gap' points lat lon = OK (b, m) ->
  exists p q ts,
    points !! Z.to_nat b = Some p /\
    points !! S (Z.to_nat b) = Some q /\
    insertion_timestamp' points lat lon = OK ts /\
    let t_prev := fromisoformat (pt_recorded_at p) in
    let t_next := fromisoformat (pt_recorded_at q) in
    ts = t_prev + divide_and_round (t_next - t_prev) 2 /\
    -1 <= 2 * ts - (t_prev + t_next) <= 1 /\
    ((t_next - t_prev) `mod` 2 = 0 -> 2 * ts = t_prev + t_next) /\
    t_prev <= ts < t_next /\
    (2 <= t_next - t_prev -> t_prev < ts).
Proof.
  intros Hlen Hinc Hrun.
  pose proof (best_gap_position_range _ _ _ _ _ Hlen Hrun) as Hb.
  destruct (midpoint_timestamp_in_range points b Hb)
    as (p & q & Hp & Hq & Hts).
  replace (Z.to_nat (b + 1)) with (S (Z.to_nat b)) in Hq by lia.
  exists p, q. eexists. split; [done|]. split; [done|]. split.
  { rewrite (insertion_timestamp_of_gap _ _ _ _ _ Hlen Hrun). exact Hts. }
  pose proof (Hinc _ _ _ Hp Hq) as Hlt.
  pose proof (divide_and_round_half
                (fromisoformat (pt_recorded_at q)
                 - fromisoformat (pt_recorded_at p))) as (H1 & H2 & H3 & H4).
  cbv zeta. repeat split; try lia.
Qed.

(** ** Adding the point *)

Lemma collides_existing db u ts pid r :
  points db !! pid = Some r -> user_id r = u -> recorded_at r = ts ->
  collides db u ts = true.
Proof.
  intros Hr Hu Ht. unfold collides. apply bool_decide_eq_true.
  assert (Hin : (pid, r) ∈ rows_where (same_user_time u ts) (points db)).
  { unfold rows_where. apply list_elem_of_filter. split.
    - unfold same_user_time. simpl. rewrite Hu, Ht, !Z.eqb_refl. done.
    - by apply elem_of_map_to_list. }
  destruct (rows_where (same_user_time u ts) (points db)) as [|kr l];
    [by apply elem_of_nil in Hin|by eexists].
Qed.

(** A run of [add_point_to_route] once the timestamp is found: one
    [SELECT], one [INSERT], then either the committed row or a rollback. *)
Lemma add_point_run db u d lat lon alt acc ts :
  find_insertion_timestamp math_sin math_cos math_atan2 db u d lat lon
  = OK ts ->
  let o := add_point_to_route math_sin math_cos math_atan2
             db u d lat lon alt acc in
  let ts' := if collides db u ts then ts + seconds 5 else ts in
  let row := manual_point u lat lon ts' acc alt in
  statements o = [SelectIdByUserTime u ts; InsertPoint row] /\
  (returned o = OK (PointAdded (points_id_seq db) (isoformat ts')
                               (Literal "Point added successfully")) /\
   points (db_after o) = <[points_id_seq db := row]> (points db) /\
   points db !! points_id_seq db = None
   \/
   returned o = OK (Failure (StrOf IntegrityError)) /\
   points (db_after o) = points db).
Proof.
  intros Hfind. unfold add_point_to_route. rewrite Hfind.
  unfold select_id_by_user_time, insert_point, collides. cbn.
  destruct (bool_decide (is_Some (fst <$> head _))); cbn;
    (destruct (bool_decide_reflect
                 (is_Some (points db !! points_id_seq db))) as [Hk|Hk]; cbn;
     [by split; [|right]|]);
    (destruct (unique_user_time db && _); cbn; split; try done;
     [by right|left]);
    repeat split; try done; by apply eq_None_not_Some.
Qed.

(** C3: a route of one point gives the timestamp of that point plus 30
    seconds.  On a route of no point, [points[-1]] raises [IndexError] in
    [find_insertion_timestamp], which [add_point_to_route] calls outside its
    [try]: the exception escapes, no dictionary with a reason is returned, no
    statement is executed and the database is as before. *)
Theorem short_route_placement db u d lat lon alt acc :
  (forall p, get_route_points db u d = [p] ->
     find_insertion_timestamp math_sin math_cos math_atan2 db u d lat lon
     = OK (fromisoformat (pt_recorded_at p) + seconds 30)) /\
  (get_route_points db u d = [] ->
     add_point_to_route math_sin math_cos math_atan2 db u d lat lon alt acc
     = {| returned := Raise IndexError; db_after := db; statements := [] |}).
Proof.
  split.
  - intros p Hp. unfold find_insertion_timestamp. by rewrite Hp.
  - intros Hnil. unfold add_point_to_route, find_insertion_timestamp.
    by rewrite Hnil.
Qed.

(** C4: when a point of the same user already has exactly the candidate
    timestamp, the statements executed are one [SELECT] for the candidate and
    then the [INSERT] of a row stamped 5 seconds later, whatever the table
    holds at that later instant; a point that is added carries the shifted
    timestamp. *)
Theorem collision_shifts_once db u d lat lon alt acc ts pid r :
  find_insertion_timestamp math_sin math_cos math_atan2 db u d lat lon
  = OK ts ->
  points db !! pid = Some r -> user_id r = u -> recorded_at r = ts ->
  let o := add_point_to_route math_sin math_cos math_atan2
             db u d lat lon alt acc in
  let row := manual_point u lat lon (ts + seconds 5) acc alt in
  statements o = [SelectIdByUserTime u ts; InsertPoint row] /\
  forall point_id stamp msg,
    returned o = OK (PointAdded point_id stamp msg) ->
    stamp = isoformat (ts + seconds 5) /\
    points (db_after o) !! point_id = Some row.
Proof.
  intros Hfind Hr Hu Ht.
  pose proof (add_point_run db u d lat lon alt acc ts Hfind) as Hrun.
  rewrite (collides_existing db u ts pid r Hr Hu Ht) in Hrun.
  cbv zeta in *. destruct Hrun as [Hst Hres]. split; [done|].
  intros point_id stamp msg Hret.
  destruct Hres as [(Hok & Hdb & _)|[Hfail _]].
  - rewrite Hok in Hret. injection Hret as <- <- <-. split; [done|].
    rewrite Hdb. apply lookup_insert_eq.
  - rewrite Hfail in Hret. discriminate.
Qed.

(** C6 at the accuracy [0.0]: [accuracy or 20.0] takes the zero for an
    omitted value, and the row sent to the store carries [20.0], with the
    supplied altitude and neither speed nor battery. *)
Theorem zero_accuracy_stored_as_default db u d lat lon alt ts :
  find_insertion_timestamp math_sin math_cos math_atan2 db u d lat lon
  = OK ts ->
  exists row,
    statements (add_point_to_route math_sin math_cos math_atan2
                  db u d lat lon alt (Some 0%float))
    = [SelectIdByUserTime u ts; InsertPoint row] /\
    accuracy row = Some 20%float /\
    altitude row = alt /\ speed row = None /\ battery row = None.
Proof.
  intros Hfind.
  destruct (add_point_run db u d lat lon alt (Some 0%float) ts Hfind)
    as [Hst _].
  eexists. split; [exact Hst|]. by repeat split.
Qed.

(** What every inserted row carries. *)
Lemma inserted_row_fields db u d lat lon alt acc s :
  s ∈ statements (add_point_to_route math_sin math_cos math_atan2
                    db u d lat lon alt acc) ->
  forall row, s = InsertPoint row ->
    user_id row = u /\ latitude row = Some lat /\ longitude row = Some lon /\
    accuracy row = Some (py_or acc 20) /\
    altitude row = alt /\ speed row = None /\ battery row = None.
Proof.
  destruct (find_insertion_timestamp math_sin math_cos math_atan2
              db u d lat lon) as [ts|e] eqn:Hfind.
  - destruct (add_point_run db u d lat lon alt acc ts Hfind) as [-> _].
    intros Hs row ->.
    apply elem_of_cons in Hs as [Hs|Hs]; [done|].
    apply list_elem_of_singleton in Hs. injection Hs as ->. by repeat split.
  - unfold add_point_to_route. rewrite Hfind. simpl.
    by intros ?%elem_of_nil.
Qed.

End PlacementProperties.

(** ** Deleting a point *)

Lemma delete_point_owned db u pid r :
  points db !! pid = Some r -> user_id r = u ->
  delete_point db u pid
  = {| returned := OK (PointDeleted (Literal "Point deleted successfully"));
       db_after := {| points := delete pid (points db);
                      points_id_seq := points_id_seq db;
                      unique_user_time := unique_user_time db |};
       statements := [DeletePoint pid u] |}.
Proof.
  intros Hr Hu. unfold delete_point, delete_where_id_user. cbn.
  rewrite Hr. by rewrite (proj2 (Z.eqb_eq _ _) Hu).
Qed.

Lemma delete_point_refused db u pid :
  (points db !! pid = None \/
   exists r, points db !! pid = Some r /\ user_id r <> u) ->
  delete_point db u pid
  = {| returned := OK not_found; db_after := db;
       statements := [DeletePoint pid u] |}.
Proof.
  intros H. unfold delete_point, delete_where_id_user. cbn.
  destruct db as [tbl sq uq]. cbn in *.
  destruct H as [->|(r & -> & Hne)]; [done|].
  by rewrite (proj2 (Z.eqb_neq _ _) Hne).
Qed.

Lemma delete_point_cases db u pid :
  (exists r, points db !! pid = Some r /\ user_id r = u) \/
  (points db !! pid = None \/
   exists r, points db !! pid = Some r /\ user_id r <> u).
Proof.
  destruct (points db !! pid) as [r|] eqn:Hr; [|by right; left].
  destruct (decide (user_id r = u)); [left|right; right]; by exists r.
Qed.

(** C8: [delete_point] reports a deletion exactly when the point exists and
    its [user_id] is the given one, and only then is the row gone; for an id
    that does not exist and for an id owned by someone else it returns the
    same dictionary, "Point not found or not authorized". *)
Theorem delete_point_by_owner_only :
  (forall db u pid,
     returned (delete_point db u pid)
     = OK (PointDeleted (Literal "Point deleted successfully")) <->
     exists r, points db !! pid = Some r /\ user_id r = u) /\
  (forall db u pid r,
     points db !! pid = Some r ->
     points (db_after (delete_point db u pid)) !! pid = None ->
     user_id r = u) /\
  (forall db1 db2 u pid r,
     points db1 !! pid = None ->
     points db2 !! pid = Some r -> user_id r <> u ->
     returned (delete_point db1 u pid) = OK not_found /\
     returned (delete_point db2 u pid) = returned (delete_point db1 u pid)).
Proof.
  split; [|split].
  - intros db u pid.
    destruct (delete_point_cases db u pid) as [(r & Hr & Hu)|Hno].
    + rewrite (delete_point_owned db u pid r Hr Hu). simpl. split; eauto.
    + rewrite (delete_point_refused db u pid Hno). simpl. split; [done|].
      intros (r & Hr & Hu). destruct Hno as [Hn|(r' & Hr' & Hne)]; congruence.
  - intros db u pid r Hr Hgone.
    destruct (decide (user_id r = u)) as [|Hne]; [done|].
    rewrite (delete_point_refused db u pid) in Hgone by (right; eauto).
    simpl in Hgone. congruence.
  - intros db1 db2 u pid r H1 H2 Hne.
    rewrite (delete_point_refused db1 u pid) by by left.
    rewrite (delete_point_refused db2 u pid) by (right; eauto). done.
Qed.

(** C10: [delete_point] changes the table at the given id at most: every
    other row, of any user, is as before; the table is either unchanged or has
    lost the one row with that id, which belonged to the given user; and when
    the answer is "Point not found or not authorized" the database is
    unchanged. *)
Theorem delete_point_frame db u pid :
  let o := delete_point db u pid in
  (forall id, id <> pid -> points (db_after o) !! id = points db !! id) /\
  (points (db_after o) = points db \/
   exists r, points db !! pid = Some r /\ user_id r = u /\
             points (db_after o) = delete pid (points db) /\
             size (points (db_after o)) = Nat.pred (size (points db))) /\
  (returned o = OK not_found -> db_after o = db).
Proof.
  cbv zeta.
  destruct (delete_point_cases db u pid) as [(r & Hr & Hu)|Hno].
  - rewrite (delete_point_owned db u pid r Hr Hu). simpl. split; [|split].
    + intros id Hid. by apply lookup_delete_ne.
    + right. exists r. repeat split; try done.
      by apply map_size_delete_Some.
    + discriminate.
  - rewrite (delete_point_refused db u pid Hno). simpl. auto.
Qed.

(** ** Listing routes *)

Module Float8.

Import FloatOrder.

Lemma float8_lt_spec a b : float8_lt a b = SFlt (Prim2SF a) (Prim2SF b).
Proof.
  unfold float8_lt, SFlt, is_nan.
  by rewrite !FloatAxioms.eqb_spec, FloatAxioms.ltb_spec.
Qed.

Lemma SFlt_asym (a b : spec_float) : SFlt a b = true -> SFlt b a = false.
Proof. unfold SFlt. sf_cases. Qed.

Lemma SFlt_negtrans (x a y : spec_float) :
  SFlt x a = false -> SFlt a y = false -> SFlt x y = false.
Proof. unfold SFlt. sf_cases. Qed.

Lemma lt_asym a b : float8_lt a b = true -> float8_lt b a = false.
Proof. rewrite !float8_lt_spec. apply SFlt_asym. Qed.

Lemma lt_irrefl a : float8_lt a a = false.
Proof.
  destruct (float8_lt a a) eqn:E; [|done].
  pose proof (lt_asym _ _ E). congruence.
Qed.

Lemma lt_negtrans x a y :
  float8_lt x a = false -> float8_lt a y = false -> float8_lt x y = false.
Proof. rewrite !float8_lt_spec. apply SFlt_negtrans. Qed.

End Float8.

Lemma filter_fmap {A B : Type} (f : A -> B) (P : B -> Prop)
    `{!forall y, Decision (P y)} (l : list A) :
  filter P (f <$> l) = f <$> filter (P ∘ f) l.
Proof.
  induction l as [|x l IH]; [done|]. rewrite fmap_cons, !filter_cons. simpl.
  destruct (decide (P (f x))); by rewrite IH.
Qed.

(** An aggregate that keeps one of its two arguments returns a value of the
    column that none of the others beats. *)
Lemma aggregate_extremum {A : Type} (f : A -> A -> A) (P : A -> A -> Prop)
    (xs : list (option A)) :
  (forall x, P x x) ->
  (forall acc y, f acc y = acc /\ P y acc \/
                 f acc y = y /\ forall x, P x acc -> P x y) ->
  omap id xs <> [] ->
  exists a, aggregate f xs = Some a /\ a ∈ omap id xs /\
            forall x, x ∈ omap id xs -> P x a.
Proof.
  intros Hrefl Hstep. unfold aggregate.
  destruct (omap id xs) as [|x rest]; [done|]. intros _.
  exists (foldl f x rest). split; [done|].
  assert (Hgen : forall rest seen acc,
            acc ∈ seen -> (forall z, z ∈ seen -> P z acc) ->
            foldl f acc rest ∈ seen ++ rest /\
            forall z, z ∈ seen ++ rest -> P z (foldl f acc rest)).
  { clear rest. induction rest as [|y rest IH]; intros seen acc Hin Hall.
    - rewrite app_nil_r. done.
    - simpl. replace (seen ++ y :: rest) with ((seen ++ [y]) ++ rest)
        by by rewrite <- app_assoc.
      apply IH.
      + destruct (Hstep acc y) as [[-> _]|[-> _]]; apply elem_of_app;
          [by left|right; by apply list_elem_of_singleton].
      + intros z [Hz|Hz%list_elem_of_singleton]%elem_of_app.
        * destruct (Hstep acc y) as [[-> _]|[-> Hy]]; auto.
        * subst z. destruct (Hstep acc y) as [[-> Hy]|[-> _]]; auto. }
  apply (Hgen rest [x] x).
  - by apply list_elem_of_singleton.
  - by intros z ->%list_elem_of_singleton.
Qed.

(** The filter of the query, cut down to one date, keeps the rows that
    count for that date. *)
Lemma qualifying_counted db u cutoff d :
  qualifying db u cutoff d
  = (rows_where (counted u cutoff d) (points db)).*2.
Proof.
  unfold qualifying, rows_where. rewrite filter_fmap. f_equal.
  apply list_filter_iff. intros [id r].
  unfold counted, in_window, has_coordinates, qualifies. simpl.
  rewrite !andb_true_iff, !bool_decide_eq_true, !Z.eqb_eq, Z.leb_le.
  rewrite <- !not_eq_None_Some. tauto.
Qed.

Lemma elem_of_qualifying db u cutoff d r :
  r ∈ qualifying db u cutoff d <->
  (exists id, points db !! id = Some r) /\
  user_id r = u /\ cutoff <= recorded_at r /\
  is_Some (latitude r) /\ is_Some (longitude r) /\ DATE (recorded_at r) = d.
Proof.
  rewrite qualifying_counted.
  unfold rows_where, counted, in_window, has_coordinates.
  rewrite list_elem_of_fmap. split.
  - intros ([id r'] & -> & [Hc Hin]%list_elem_of_filter). simpl in *.
    apply elem_of_map_to_list in Hin.
    rewrite !andb_true_iff, !bool_decide_eq_true, !Z.eqb_eq, Z.leb_le in Hc.
    destruct Hc as [[[Hu Hc] [Hla Hlo]] Hd].
    split; [by exists id|]. done.
  - intros ([id Hid] & Hu & Hc & Hlat & Hlon & Hd). exists (id, r).
    split; [done|]. apply list_elem_of_filter. split.
    + simpl.
      by rewrite !andb_true_iff, !bool_decide_eq_true, !Z.eqb_eq, Z.leb_le.
    + by apply elem_of_map_to_list.
Qed.

Lemma group_is_qualifying db u cutoff d :
  filter (fun r => DATE (recorded_at r) = d)
         (rows_where (in_window u cutoff) (points db)).*2
  = qualifying db u cutoff d.
Proof.
  rewrite qualifying_counted.
  unfold rows_where. rewrite filter_fmap. f_equal.
  rewrite list_filter_filter. apply list_filter_iff.
  intros [id r]. unfold counted, in_window. simpl.
  rewrite (andb_true_iff _ (_ =? d)), Z.eqb_eq. tauto.
Qed.

Global Instance more_recent_trans : Transitive more_recent.
Proof. unfold more_recent. intros a b c. lia. Qed.

Global Instance more_recent_total : Total more_recent.
Proof. unfold more_recent. intros a b. lia. Qed.

Lemma strictly_sorted_of_NoDup (l : list route_summary) :
  StronglySorted more_recent l -> NoDup (route_date <$> l) ->
  StronglySorted (fun a b => route_date b < route_date a) l.
Proof.
  induction 1 as [|a l Hs IH Hall]; [constructor|].
  rewrite fmap_cons. intros [Hnotin Hnd]%NoDup_cons.
  constructor; [by apply IH|].
  rewrite Forall_forall in Hall |- *. intros b Hb.
  pose proof (Hall b Hb) as Hle. unfold more_recent in Hle.
  destruct (decide (route_date b = route_date a)) as [Heq|]; [|lia].
  destruct Hnotin. rewrite <- Heq. by apply list_elem_of_fmap_2.
Qed.

Lemma column_extremum {A : Type} (col : point -> option A)
    (f : A -> A -> A) (P : A -> A -> Prop) (group : list point) :
  (forall x, P x x) ->
  (forall acc y, f acc y = acc /\ P y acc \/
                 f acc y = y /\ forall x, P x acc -> P x y) ->
  group <> [] ->
  (forall r, r ∈ group -> is_Some (col r)) ->
  exists a, aggregate f (col <$> group) = Some a /\
            Some a ∈ col <$> group /\
            forall r x, r ∈ group -> col r = Some x -> P x a.
Proof.
  intros Hrefl Hstep Hne Hsome.
  destruct (aggregate_extremum f P (col <$> group) Hrefl Hstep)
    as (a & Hagg & Hin & Hall).
  { destruct group as [|r g]; [done|].
    destruct (Hsome r) as [v Hv]; [left|].
    rewrite fmap_cons. simpl. by rewrite Hv. }
  exists a. split; [done|]. split.
  - apply list_elem_of_omap in Hin as (o & Ho & Hid). simpl in Hid. by subst o.
  - intros r x Hr Hx. apply Hall. apply list_elem_of_omap.
    exists (Some x). split; [|done]. rewrite <- Hx.
    by apply list_elem_of_fmap_2.
Qed.

Lemma min_keeps acc y :
  Z.min acc y = acc /\ acc <= y \/
  Z.min acc y = y /\ forall x, acc <= x -> y <= x.
Proof.
  destruct (Z.min_spec acc y) as [[? ->]|[? ->]]; [left|right];
    split; intros; lia.
Qed.

Lemma max_keeps acc y :
  Z.max acc y = acc /\ y <= acc \/
  Z.max acc y = y /\ forall x, x <= acc -> x <= y.
Proof.
  destruct (Z.max_spec acc y) as [[? ->]|[? ->]]; [right|left];
    split; intros; lia.
Qed.

Lemma float8_smaller_keeps acc y :
  float8_smaller acc y = acc /\ float8_lt y acc = false \/
  float8_smaller acc y = y /\
  forall x, float8_lt x acc = false -> float8_lt x y = false.
Proof.
  unfold float8_smaller. destruct (float8_lt acc y) eqn:E; [left|right].
  - split; [done|]. by apply Float8.lt_asym.
  - split; [done|]. intros x Hx. by eapply Float8.lt_negtrans.
Qed.

Lemma float8_larger_keeps acc y :
  float8_larger acc y = acc /\ float8_lt acc y = false \/
  float8_larger acc y = y /\
  forall x, float8_lt acc x = false -> float8_lt y x = false.
Proof.
  unfold float8_larger. destruct (float8_lt y acc) eqn:E; [left|right].
  - split; [done|]. by apply Float8.lt_asym.
  - split; [done|]. intros x Hx. by eapply Float8.lt_negtrans.
Qed.

Lemma bounds_of_aggregates col group :
  group <> [] -> (forall r, r ∈ group -> is_Some (col r)) ->
  bounds col group (aggregate float8_smaller (col <$> group))
                   (aggregate float8_larger (col <$> group)).
Proof.
  intros Hne Hsome.
  destruct (column_extremum col float8_smaller
              (fun x a => float8_lt x a = false) group)
    as (a & Ha & Hain & Hamin);
    [apply Float8.lt_irrefl|apply float8_smaller_keeps|done|done|].
  destruct (column_extremum col float8_larger
              (fun x b => float8_lt b x = false) group)
    as (b & Hb & Hbin & Hbmax);
    [apply Float8.lt_irrefl|apply float8_larger_keeps|done|done|].
  exists a, b. repeat split; eauto.
Qed.

(** The cutoff is computed, or the call ends on [OverflowError] before any
    query. *)
Lemma get_user_routes_run db now u days_back :
  representable now days_back /\
  get_user_routes db now u days_back
  = OK (select_routes db u (now - days days_back)) \/
  ~ representable now days_back /\
  get_user_routes db now u days_back = Raise OverflowError.
Proof.
  unfold get_user_routes, timedelta_of_days, datetime_sub, representable.
  destruct (Z.abs days_back <=? 999999999) eqn:E1; simpl.
  - destruct (datetime_min <=? now - days days_back) eqn:E2;
      destruct (now - days days_back <=? datetime_max) eqn:E3; simpl;
      (left; split; [lia|done]) || (right; split; [lia|done]).
  - right. split; [lia|done].
Qed.

Lemma get_user_routes_OK db now u days_back routes :
  get_user_routes db now u days_back = OK routes ->
  representable now days_back /\
  routes = select_routes db u (now - days days_back).
Proof.
  destruct (get_user_routes_run db now u days_back) as [[Hr ->]|[_ ->]];
    [|done].
  by intros [= <-].
Qed.

Lemma select_routes_dense_dates db u cutoff :
  let routes := select_routes db u cutoff in
  (forall d, (exists s, s ∈ routes /\ route_date s = d) <->
             5 <= len (qualifying db u cutoff d)) /\
  StronglySorted (fun a b => route_date b < route_date a) routes /\
  (forall s, s ∈ routes ->
     let group := qualifying db u cutoff (route_date s) in
     point_count s = len group /\ 5 <= point_count s /\
     (exists t0 t1,
        start_time s = Some t0 /\ end_time s = Some t1 /\
        (exists r0, r0 ∈ group /\ recorded_at r0 = t0) /\
        (exists r1, r1 ∈ group /\ recorded_at r1 = t1) /\
        forall r, r ∈ group -> t0 <= recorded_at r <= t1) /\
     bounds latitude group (min_lat s) (max_lat s) /\
     bounds longitude group (min_lon s) (max_lon s)).
Proof.
  cbv zeta. unfold select_routes.
  set (rows := (rows_where (in_window u cutoff) (points db)).*2).
  set (dates := remove_dups (DATE ∘ recorded_at <$> rows)).
  set (groups := (fun d => summarize d
                    (filter (fun r => DATE (recorded_at r) = d) rows))
                 <$> dates).
  set (having := filter (fun s => 5 <= point_count s) groups).
  assert (Hgroup : forall s, s ∈ groups <->
            exists d, d ∈ dates /\
                      s = summarize d (qualifying db u cutoff d)).
  { intros s. unfold groups. rewrite list_elem_of_fmap.
    split; intros (d & H1 & H2); exists d; subst rows;
      rewrite group_is_qualifying in *; done. }
  assert (Hmem : forall s, s ∈ merge_sort more_recent having <->
            5 <= len (qualifying db u cutoff (route_date s)) /\
            s = summarize (route_date s)
                  (qualifying db u cutoff (route_date s))).
  { intros s. rewrite merge_sort_Permutation. unfold having.
    rewrite list_elem_of_filter, Hgroup. split.
    - intros [Hc (d & Hd & ->)]. simpl in *. done.
    - intros [Hc Hs]. rewrite Hs. simpl. split; [done|].
      exists (route_date s). split; [|done].
      unfold dates. rewrite elem_of_remove_dups.
      destruct (qualifying db u cutoff (route_date s)) as [|r g] eqn:Hq;
        [simpl in Hc; unfold len in Hc; simpl in Hc; lia|].
      assert (Hr : r ∈ qualifying db u cutoff (route_date s))
        by (rewrite Hq; left).
      rewrite <- group_is_qualifying in Hr.
      apply list_elem_of_filter in Hr as [Hdate Hr].
      rewrite <- Hdate. by apply (list_elem_of_fmap_2 (DATE ∘ recorded_at)). }
  split; [|split].
  - intros d. split.
    + intros (s & Hs & <-). by apply Hmem in Hs as [? _].
    + intros Hc. exists (summarize d (qualifying db u cutoff d)).
      split; [|done]. apply Hmem. simpl. done.
  - apply strictly_sorted_of_NoDup.
    + apply StronglySorted_merge_sort; apply _.
    + rewrite merge_sort_Permutation.
      apply (sublist_NoDup _ (route_date <$> groups));
        [|apply fmap_sublist, sublist_filter; apply _].
      unfold groups. rewrite <- list_fmap_compose.
      rewrite (list_fmap_ext _ id dates); [|done].
      rewrite list_fmap_id. apply NoDup_remove_dups.
  - intros s [Hc Hs]%Hmem.
    set (group := qualifying db u cutoff (route_date s)) in *.
    assert (Hne : group <> []).
    { intros E. rewrite E in Hc. unfold len in Hc. simpl in Hc. lia. }
    assert (Hcoord : forall r, r ∈ group ->
              is_Some (latitude r) /\ is_Some (longitude r)).
    { intros r Hr. apply elem_of_qualifying in Hr. tauto. }
    rewrite Hs. simpl. split; [done|]. split; [done|]. split; [|split].
    + destruct (column_extremum (Some ∘ recorded_at) Z.min
                  (fun x a => a <= x) group)
        as (t0 & H0 & H0in & H0min);
        [lia|apply min_keeps|done|by eexists|].
      destruct (column_extremum (Some ∘ recorded_at) Z.max
                  (fun x b => x <= b) group)
        as (t1 & H1 & H1in & H1max);
        [lia|apply max_keeps|done|by eexists|].
      exists t0, t1. split; [done|]. split; [done|].
      apply list_elem_of_fmap in H0in as (r0 & E0 & Hr0).
      apply list_elem_of_fmap in H1in as (r1 & E1 & Hr1).
      simpl in E0, E1. injection E0 as ->. injection E1 as ->.
      split; [by exists r0|]. split; [by exists r1|].
      intros r Hr. split; [by apply (H0min r)|by apply (H1max r)].
    + apply bounds_of_aggregates; [done|]. intros r Hr. by apply Hcoord.
    + apply bounds_of_aggregates; [done|]. intros r Hr. by apply Hcoord.
Qed.

(** C7, as the code has it: when [now - days_back days] is not a [datetime]
    (a lookback of more than 999999999 days, or one that reaches before
    year 1 or beyond year 9999) the call ends on [OverflowError].  Otherwise
    it returns one summary for each date on which at least 5 points of the
    user with a latitude and a longitude were recorded at or after the
    cutoff instant [now - days_back days], and for no other date: on the
    date of the cutoff, the points recorded before its time of day do not
    count.  The summaries are by strictly decreasing date; each carries the
    number of those points, their earliest and latest timestamps, and the
    bounds of their latitudes and longitudes. *)
Theorem get_user_routes_dense_dates db now u days_back :
  let cutoff_date := now - days days_back in
  (~ representable now days_back ->
   get_user_routes db now u days_back = Raise OverflowError) /\
  (representable now days_back ->
   exists routes,
     get_user_routes db now u days_back = OK routes /\
     (forall d, (exists s, s ∈ routes /\ route_date s = d) <->
                5 <= len (qualifying db u cutoff_date d)) /\
     StronglySorted (fun a b => route_date b < route_date a) routes /\
     (forall s, s ∈ routes ->
        let group := qualifying db u cutoff_date (route_date s) in
        point_count s = len group /\ 5 <= point_count s /\
        (exists t0 t1,
           start_time s = Some t0 /\ end_time s = Some t1 /\
           (exists r0, r0 ∈ group /\ recorded_at r0 = t0) /\
           (exists r1, r1 ∈ group /\ recorded_at r1 = t1) /\
           forall r, r ∈ group -> t0 <= recorded_at r <= t1) /\
        bounds latitude group (min_lat s) (max_lat s) /\
        bounds longitude group (min_lon s) (max_lon s))).
Proof.
  cbv zeta.
  destruct (get_user_routes_run db now u days_back) as [[Hr ->]|[Hn ->]].
  - split; [done|]. intros _. eexists. split; [done|].
    apply select_routes_dense_dates.
  - done.
Qed.

(** ** The route is in time order *)

Lemma StronglySorted_omap {A B : Type} (R : relation A) (R' : relation B)
    (f : A -> option B) (l : list A) :
  (forall a b a' b', R a b -> f a = Some a' -> f b = Some b' -> R' a' b') ->
  StronglySorted R l -> StronglySorted R' (omap f l).
Proof.
  intros Hf. induction 1 as [|a l Hs IH Hall]; simpl; [constructor|].
  destruct (f a) as [a'|] eqn:Ha; [|done].
  constructor; [done|]. rewrite Forall_forall in Hall. apply Forall_forall.
  intros b' (b & Hb & Hfb)%list_elem_of_omap. eauto.
Qed.

Global Instance earlier_trans : Transitive earlier.
Proof. unfold earlier. intros a b c. lia. Qed.

Global Instance earlier_total : Total earlier.
Proof. unfold earlier. intros a b. lia. Qed.

Lemma get_route_points_ascending db u d :
  StronglySorted
    (fun p q => fromisoformat (pt_recorded_at p)
                <= fromisoformat (pt_recorded_at q))
    (get_route_points db u d).
Proof.
  unfold get_route_points.
  apply (StronglySorted_omap earlier);
    [|apply StronglySorted_merge_sort; apply _].
  intros a b a' b' Hab Ha Hb. unfold to_route_point in Ha, Hb.
  destruct (latitude a.2), (longitude a.2), (latitude b.2), (longitude b.2);
    simplify_eq/=. exact Hab.
Qed.

Example divide_and_round_samples :
  (fun a => divide_and_round a 2) <$> [1; 2; 3; 5; 7; -1]
  = [0; 1; 2; 2; 4; 0].
Proof. reflexivity. Qed.

Example straight_line_gap :
  (st <~ best_gap sin_1 cos_1 atan2_1 straight_line 0 0.5 ;; OK st.1) = OK 0
  /\ insertion_timestamp sin_1 cos_1 atan2_1 straight_line 0 0.5
     = OK (seconds 43230).
Proof. split; vm_compute; reflexivity. Qed.

Example end_to_end_user7 :
  let o := add_point_to_route sin_1 cos_1 atan2_1 user7 7 19723 40 (-73.5)
             None None in
  returned o = OK (PointAdded 3 (isoformat (seconds 1704103500))
                              (Literal "Point added successfully")) /\
  points (db_after o) !! 3
  = Some {| user_id := 7; latitude := Some 40%float;
            longitude := Some (-73.5)%float;
            recorded_at := seconds 1704103500;
            accuracy := Some 20%float; altitude := None; speed := None;
            battery := None |}.
Proof. split; vm_compute; reflexivity. Qed.

Example single_point_user9 :
  find_insertion_timestamp sin_1 cos_1 atan2_1 user9 9 19723 1 2
  = OK (seconds 1704099630).
Proof. vm_compute. reflexivity. Qed.

Example supplied_accuracy_kept :
  py_or (Some 3.5%float) 20 = 3.5%float /\ py_or None 20 = 20%float /\
  py_or (Some 0%float) 20 = 20%float /\ py_or (Some (-0)%float) 20 = 20%float.
Proof. repeat split. Qed.

Lemma straight_line_increasing : increasing straight_line.
Proof.
  intros i p q Hp Hq.
  destruct i as [|[|[|i]]]; simpl in Hp, Hq; simplify_eq; vm_compute;
    reflexivity.
Qed.

Lemma close_pair_increasing : increasing close_pair.
Proof.
  intros i p q Hp Hq.
  destruct i as [|[|i]]; simpl in Hp, Hq; simplify_eq; vm_compute;
    reflexivity.
Qed.



(** C5 on the degree of equator, with the values of the C library: the
    theorem applies to the new point (0, 0.3), whose penalty is -2^-36. *)
Lemma penalty_negative_only_below_gap_degree :
  exists p q dist_to_prev dist_to_next original_gap,
    py_index degree_line 0 = OK p /\ py_index degree_line (0 + 1) = OK q /\
    great_circle_distance libm_sin libm_cos libm_atan2 0 three_tenths
      (pt_latitude p) (pt_longitude p) = OK dist_to_prev /\
    great_circle_distance libm_sin libm_cos libm_atan2 0 three_tenths
      (pt_latitude q) (pt_longitude q) = OK dist_to_next /\
    great_circle_distance libm_sin libm_cos libm_atan2
      (pt_latitude p) (pt_longitude p) (pt_latitude q) (pt_longitude q)
    = OK original_gap /\
    (-0x1p-36)%float
    = (dist_to_prev + dist_to_next - original_gap)%float /\
    (((-0x1p-36) <? 0)%float = true ->
     (dist_to_prev + dist_to_next <? original_gap)%float = true).
Proof.
  apply (penalty_negative_only_below_gap libm_sin libm_cos libm_atan2
           degree_line 0 three_tenths 0 (-0x1p-36)%float).
  vm_compute. reflexivity.
Defined.

(** The penalty of the point (0, 0.3) on the degree of equator is negative:
    the computed distances to (0, 0) and (0, 1) add up to less than the
    computed distance between these two. *)
Lemma penalty_below_zero :
  distance_penalty libm_sin libm_cos libm_atan2 degree_line 0 three_tenths 0
  = OK (-0x1p-36)%float /\
  ((-0x1p-36) <? 0)%float = true /\
  haversine_distance libm_sin libm_cos libm_atan2 0 three_tenths 0 0
  = OK 0x1.049cf4bb8bf34p+15%float /\
  haversine_distance libm_sin libm_cos libm_atan2 0 three_tenths 0 1
  = OK 0x1.300c72dacdf12p+16%float /\
  haversine_distance libm_sin libm_cos libm_atan2 0 0 0 1
  = OK 0x1.b25aed3893eadp+16%float /\
  (0x1.049cf4bb8bf34p+15 + 0x1.300c72dacdf12p+16
   <? 0x1.b25aed3893eadp+16)%float = true.
Proof. repeat split; vm_compute; reflexivity. Qed.

(** C9 on the straight line with a NaN latitude: every penalty is NaN and
    the loop leaves [best_position = 0]. *)
Lemma best_position_in_bounds_nan :
  0 <= 0 <= len straight_line - 2 /\
  (exists p q, py_index straight_line 0 = OK p /\
               py_index straight_line (0 + 1) = OK q) /\
  (exists ts, insertion_timestamp sin_1 cos_1 atan2_1 straight_line nan 0.5
              = OK ts).
Proof.
  assert (Hlen : 2 <= len straight_line) by (vm_compute; discriminate).
  apply (proj2 (best_position_in_bounds sin_1 cos_1 atan2_1 straight_line
                  nan 0.5 Hlen) 0 infinity).
  vm_compute. reflexivity.
Defined.

(** C2 on the straight line. *)
Lemma midpoint_rounded_between_line :
  exists p q ts,
    straight_line !! Z.to_nat 0 = Some p /\
    straight_line !! S (Z.to_nat 0) = Some q /\
    insertion_timestamp sin_1 cos_1 atan2_1 straight_line 0 0.5 = OK ts /\
    fromisoformat (pt_recorded_at p) < ts < fromisoformat (pt_recorded_at q).
Proof.
  destruct (midpoint_rounded_between sin_1 cos_1 atan2_1 straight_line 0 0.5
              0 line_minimum)
    as (p & q & ts & Hp & Hq & Hts & H).
  - vm_compute. discriminate.
  - exact straight_line_increasing.
  - vm_compute. reflexivity.
  - exists p, q, ts. cbv zeta in H. destruct H as (_ & _ & _ & Hb & Hlo).
    repeat split; try done; try lia.
    apply Hlo. cbv in Hp, Hq. simplify_eq. vm_compute. discriminate.
Defined.

(** C2 as stated fails for neighbours one microsecond apart: the timestamp
    is the one of the earlier neighbour, neither the midpoint nor after it. *)
Lemma midpoint_of_close_pair :
  increasing close_pair /\ 2 <= len close_pair /\
  py_index close_pair 0 = OK (stop 1 0 0 0) /\
  py_index close_pair 1 = OK (stop 2 0 1 1) /\
  midpoint_timestamp close_pair 0 = OK 0 /\
  ~ (exists ts, midpoint_timestamp close_pair 0 = OK ts /\
                2 * ts = 0 + 1 /\ 0 < ts < 1).
Proof.
  split; [exact close_pair_increasing|].
  split; [vm_compute; discriminate|].
  repeat split; try reflexivity.
  intros (ts & Hts & Hmid & Hlt). lia.
Qed.

Example close_pair_timestamp :
  insertion_timestamp sin_1 cos_1 atan2_1 close_pair 0 0.5 = OK 0.
Proof. vm_compute. reflexivity. Qed.

(** C3 on a date without points. *)
Lemma short_route_placement_empty :
  add_point_to_route sin_1 cos_1 atan2_1 no_points 9 19723 1 2 None None
  = {| returned := Raise IndexError; db_after := no_points;
       statements := [] |}.
Proof.
  apply (proj2 (short_route_placement sin_1 cos_1 atan2_1 no_points 9 19723
                  1 2 None None)).
  vm_compute. reflexivity.
Defined.

(** C4 with a row of the user at the midpoint 10:05:00. *)
Lemma collision_shifts_once_busy :
  statements (add_point_to_route sin_1 cos_1 atan2_1 user7_busy 7 19723
                40 (-73.5) None None)
  = [SelectIdByUserTime 7 (seconds 1704103500);
     InsertPoint (manual_point 7 40 (-73.5)
                    (seconds 1704103500 + seconds 5) None None)].
Proof.
  apply (collision_shifts_once sin_1 cos_1 atan2_1 user7_busy 7 19723
           40 (-73.5) None None (seconds 1704103500) 3
           (fix_at 7 None (seconds 1704103500))).
  - vm_compute. reflexivity.
  - vm_compute. reflexivity.
  - reflexivity.
  - reflexivity.
Defined.

(** C6 with accuracy 0.0 on the route of user 7. *)
Lemma zero_accuracy_user7 :
  exists row,
    statements (add_point_to_route sin_1 cos_1 atan2_1 user7 7 19723
                  40 (-73.5) None (Some 0%float))
    = [SelectIdByUserTime 7 (seconds 1704103500); InsertPoint row] /\
    accuracy row = Some 20%float /\
    altitude row = None /\ speed row = None /\ battery row = None.
Proof.
  apply (zero_accuracy_stored_as_default sin_1 cos_1 atan2_1 user7 7 19723
           40 (-73.5) None (seconds 1704103500)).
  vm_compute. reflexivity.
Defined.

(** C8 with point 1 of user 7, asked for by user 8, and an id nobody has. *)
Lemma delete_point_foreign_or_missing :
  returned (delete_point no_points 8 1) = OK not_found /\
  returned (delete_point user7 8 1) = returned (delete_point no_points 8 1).
Proof.
  apply (proj2 (proj2 delete_point_by_owner_only) no_points user7 8 1
           (fix_at 7 (Some (40, -74)%float) (seconds 1704103200))).
  - vm_compute. reflexivity.
  - vm_compute. reflexivity.
  - vm_compute. discriminate.
Defined.

(** ** What a route holds *)

Lemma elem_of_rows_where (P : Z -> point -> bool) (tbl : gmap Z point) id r :
  (id, r) ∈ rows_where P tbl <-> tbl !! id = Some r /\ P id r = true.
Proof.
  unfold rows_where. rewrite list_elem_of_filter, elem_of_map_to_list.
  simpl. tauto.
Qed.

Lemma on_route_spec u d id r :
  on_route u d id r = true <->
  user_id r = u /\ DATE (recorded_at r) = d /\
  is_Some (latitude r) /\ is_Some (longitude r).
Proof.
  unfold on_route, has_coordinates.
  rewrite !andb_true_iff, !bool_decide_eq_true, !Z.eqb_eq. tauto.
Qed.

Lemma to_route_point_Some kr p :
  to_route_point kr = Some p <->
  exists lat lon,
    latitude kr.2 = Some lat /\ longitude kr.2 = Some lon /\
    p = {| pt_id := kr.1; pt_latitude := lat; pt_longitude := lon;
           pt_recorded_at := isoformat (recorded_at kr.2);
           pt_accuracy := accuracy kr.2; pt_altitude := altitude kr.2;
           pt_speed := speed kr.2; pt_battery := battery kr.2 |}.
Proof.
  unfold to_route_point.
  destruct (latitude kr.2) as [lat|], (longitude kr.2) as [lon|]; simpl;
    split; try done; try (by intros (? & ? & ? & ? & ?)).
  - intros [= <-]. by exists lat, lon.
  - intros (? & ? & [= <-] & [= <-] & ->). done.
Qed.

Lemma elem_of_get_route_points db u d p :
  p ∈ get_route_points db u d <->
  exists r, points db !! pt_id p = Some r /\ on_route u d 0 r = true /\
            to_route_point (pt_id p, r) = Some p.
Proof.
  unfold get_route_points. rewrite list_elem_of_omap. split.
  - intros ([id r] & Hin & Hp). rewrite merge_sort_Permutation in Hin.
    apply elem_of_rows_where in Hin as [Hr Hon].
    assert (pt_id p = id) as ->.
    { apply to_route_point_Some in Hp as (? & ? & _ & _ & ->). done. }
    by exists r.
  - intros (r & Hr & Hon & Hp). exists (pt_id p, r). split; [|done].
    rewrite merge_sort_Permutation. by apply elem_of_rows_where.
Qed.

Lemma route_ids_sublist (l : list (Z * point)) :
  pt_id <$> omap to_route_point l `sublist_of` l.*1.
Proof.
  induction l as [|kr l IH]; [done|]. simpl.
  destruct (to_route_point kr) as [p|] eqn:Hp; simpl.
  - apply to_route_point_Some in Hp as (? & ? & _ & _ & ->). simpl.
    by apply sublist_skip.
  - by apply sublist_cons.
Qed.

Lemma rows_where_ids_NoDup P tbl : NoDup (rows_where P tbl).*1.
Proof.
  apply (sublist_NoDup _ (map_to_list tbl).*1).
  - apply NoDup_fst_map_to_list.
  - apply fmap_sublist. unfold rows_where. apply sublist_filter; apply _.
Qed.

(** X1: [get_route_points] returns exactly the rows of the table that belong
    to the user, fall on the date and have both coordinates, each once, with
    its fields and the ISO form of its timestamp, in non-decreasing order of
    [recorded_at]. *)
Theorem get_route_points_exact db u d :
  let route := get_route_points db u d in
  (forall p, p ∈ route <->
     exists r lat lon,
       points db !! pt_id p = Some r /\
       user_id r = u /\ DATE (recorded_at r) = d /\
       latitude r = Some lat /\ longitude r = Some lon /\
       p = {| pt_id := pt_id p; pt_latitude := lat; pt_longitude := lon;
              pt_recorded_at := isoformat (recorded_at r);
              pt_accuracy := accuracy r; pt_altitude := altitude r;
              pt_speed := speed r; pt_battery := battery r |}) /\
  NoDup (pt_id <$> route) /\
  StronglySorted
    (fun p q => fromisoformat (pt_recorded_at p)
                <= fromisoformat (pt_recorded_at q)) route.
Proof.
  cbv zeta. split; [|split].
  - intros p. rewrite elem_of_get_route_points. split.
    + intros (r & Hr & Hon & Hp).
      apply on_route_spec in Hon as (Hu & Hd & _ & _).
      apply to_route_point_Some in Hp as (lat & lon & Hlat & Hlon & Hp).
      exists r, lat, lon. done.
    + intros (r & lat & lon & Hr & Hu & Hd & Hlat & Hlon & Hp).
      exists r. split; [done|]. split.
      * apply on_route_spec. rewrite Hlat, Hlon. by repeat split.
      * apply to_route_point_Some. by exists lat, lon.
  - unfold get_route_points.
    eapply sublist_NoDup; [|apply route_ids_sublist].
    rewrite merge_sort_Permutation. apply rows_where_ids_NoDup.
  - apply get_route_points_ascending.
Qed.

(** ** Routes when the table changes *)

Lemma rows_where_insert P (tbl : gmap Z point) id row :
  tbl !! id = None ->
  rows_where P (<[id := row]> tbl)
  ≡ₚ (if P id row then [(id, row)] else []) ++ rows_where P tbl.
Proof.
  intros Hfresh. unfold rows_where.
  rewrite (map_to_list_insert tbl id row Hfresh), filter_cons. simpl.
  destruct (P id row); by case_decide.
Qed.

Lemma get_route_points_insert db db' id row u d :
  points db !! id = None ->
  points db' = <[id := row]> (points db) ->
  get_route_points db' u d
  ≡ₚ (if on_route u d id row then option_list (to_route_point (id, row))
      else [])
     ++ get_route_points db u d.
Proof.
  intros Hfresh Hdb'. unfold get_route_points.
  rewrite !merge_sort_Permutation, Hdb'.
  rewrite (rows_where_insert _ _ _ _ Hfresh), omap_app.
  destruct (on_route u d id row); [|done]. simpl.
  by destruct (to_route_point (id, row)).
Qed.

Lemma get_route_points_delete db db' id row u d :
  points db !! id = Some row ->
  points db' = delete id (points db) ->
  get_route_points db u d
  ≡ₚ (if on_route u d id row then option_list (to_route_point (id, row))
      else [])
     ++ get_route_points db' u d.
Proof.
  intros Hrow Hdb'. apply get_route_points_insert.
  - rewrite Hdb'. apply lookup_delete_eq.
  - rewrite Hdb', insert_delete_eq. symmetry. by apply insert_id.
Qed.

Lemma length_omap_total {A B : Type} (f : A -> option B) (l : list A) :
  (forall x, x ∈ l -> is_Some (f x)) -> length (omap f l) = length l.
Proof.
  induction l as [|x l IH]; intros Hl; [done|]. simpl.
  destruct (Hl x) as [y ->]; [left|]. simpl. f_equal. apply IH.
  intros z Hz. apply Hl. by right.
Qed.

Lemma length_get_route_points db u d :
  length (get_route_points db u d)
  = length (rows_where (on_route u d) (points db)).
Proof.
  unfold get_route_points. rewrite length_omap_total.
  - by rewrite merge_sort_Permutation.
  - intros [id r]. rewrite merge_sort_Permutation.
    intros [_ Hon]%elem_of_rows_where.
    apply on_route_spec in Hon as (_ & _ & [lat Hlat] & [lon Hlon]).
    unfold to_route_point. simpl. rewrite Hlat, Hlon. by eexists.
Qed.

Lemma filter_sublist_mono {A : Type} (P Q : A -> Prop)
    `{!forall x, Decision (P x)} `{!forall x, Decision (Q x)} (l : list A) :
  (forall x, P x -> Q x) -> filter P l `sublist_of` filter Q l.
Proof.
  intros HPQ. induction l as [|x l IH]; [done|]. rewrite !filter_cons.
  destruct (decide (P x)) as [HP|HP].
  - rewrite decide_True by auto. by apply sublist_skip.
  - destruct (decide (Q x)); [by apply sublist_cons|done].
Qed.

(** ** Adding a point: what happens to the table *)

Section AddProperties.

Variable math_sin : float -> exc float.
Variable math_cos : float -> exc float.
Variable math_atan2 : float -> float -> exc float.

Local Abbreviation find' :=
  (find_insertion_timestamp math_sin math_cos math_atan2).
Local Abbreviation add' := (add_point_to_route math_sin math_cos math_atan2).

Lemma add_point_decided db u d lat lon alt acc ts :
  find' db u d lat lon = OK ts ->
  let o := add' db u d lat lon alt acc in
  let ts' := if collides db u ts then ts + seconds 5 else ts in
  let row := manual_point u lat lon ts' acc alt in
  if refused db row
  then returned o = OK (Failure (StrOf IntegrityError)) /\
       db_after o = {| points := points db;
                       points_id_seq := points_id_seq db + 1;
                       unique_user_time := unique_user_time db |}
  else returned o = OK (PointAdded (points_id_seq db) (isoformat ts')
                                   (Literal "Point added successfully")) /\
       db_after o = {| points := <[points_id_seq db := row]> (points db);
                       points_id_seq := points_id_seq db + 1;
                       unique_user_time := unique_user_time db |} /\
       points db !! points_id_seq db = None.
Proof.
  intros Hfind. unfold add_point_to_route. rewrite Hfind.
  unfold select_id_by_user_time, insert_point, collides, refused. cbn.
  destruct (bool_decide (is_Some (fst <$> head _))); cbn;
    (destruct (bool_decide_reflect
                 (is_Some (points db !! points_id_seq db))) as [Hk|Hk]; cbn;
     [done|]);
    (destruct (unique_user_time db && _); cbn; [done|]);
    repeat split; by apply eq_None_not_Some.
Qed.

(** X2: whatever [add_point_to_route] returns or raises, every row that was
    in the table is still there unchanged, and a row that is there afterwards
    was there before or is a row of the user, under the id the sequence
    handed out, which no row had, stamped with the timestamp
    [find_insertion_timestamp] returned or 5 seconds later. *)
Theorem add_point_keeps_rows db u d lat lon alt acc :
  let o := add_point_to_route math_sin math_cos math_atan2
             db u d lat lon alt acc in
  (forall id r, points db !! id = Some r ->
                points (db_after o) !! id = Some r) /\
  (forall id r, points (db_after o) !! id = Some r ->
     points db !! id = Some r \/
     id = points_id_seq db /\ points db !! id = None /\ user_id r = u /\
     exists ts,
       find_insertion_timestamp math_sin math_cos math_atan2
         db u d lat lon = OK ts /\
       (recorded_at r = ts \/ recorded_at r = ts + seconds 5)).
Proof.
  cbv zeta. destruct (find' db u d lat lon) as [ts|e] eqn:Hfind.
  - pose proof (add_point_decided db u d lat lon alt acc ts Hfind) as Hrun.
    cbv zeta in Hrun. destruct (refused db _).
    + destruct Hrun as [_ ->]. simpl. auto.
    + destruct Hrun as (_ & -> & Hfresh). simpl. split.
      * intros id r Hr. rewrite lookup_insert_ne; [done|]. congruence.
      * intros id r. rewrite lookup_insert. case_decide as Hid.
        -- intros [= <-]. right. subst id. repeat split; try done.
           exists ts. split; [done|]. simpl.
           destruct (collides db u ts); auto.
        -- auto.
  - unfold add_point_to_route. rewrite Hfind. simpl. auto.
Qed.

End AddProperties.

(** ** Where the new point lands *)

Lemma StronglySorted_lookup_lt {A : Type} (R : relation A) (l : list A)
    (i j : nat) x y :
  StronglySorted R l -> l !! i = Some x -> l !! j = Some y -> (i < j)%nat ->
  R x y.
Proof.
  intros Hs. revert i j. induction Hs as [|a l Hs IH Hall]; intros i j;
    [done|].
  destruct i as [|i], j as [|j]; simpl; try lia.
  - intros [= <-] Hy _. rewrite Forall_forall in Hall. apply Hall.
    by eapply list_elem_of_lookup_2.
  - intros Hx Hy Hij. apply (IH i j); [done|done|lia].
Qed.

Lemma DATE_bounds t d :
  DATE t = d <-> days d <= t < days (d + 1).
Proof.
  unfold DATE, days.
  pose proof (Z.div_mod t 86400000000 ltac:(lia)).
  pose proof (Z.mod_pos_bound t 86400000000 ltac:(lia)).
  split; [intros <-; lia|]. intros Ht.
  assert (d <= t `div` 86400000000 < d + 1); [|lia].
  split; [apply Z.div_le_lower_bound; lia|apply Z.div_lt_upper_bound; lia].
Qed.

Lemma DATE_between t1 t2 t d :
  DATE t1 = d -> DATE t2 = d -> t1 <= t <= t2 -> DATE t = d.
Proof. rewrite !DATE_bounds. lia. Qed.

Lemma midpoint_between t1 t2 :
  t1 <= t2 ->
  t1 <= t1 + divide_and_round (t2 - t1) 2 <= t2.
Proof.
  intros Hle. destruct (decide (t1 = t2)) as [->|Hne].
  - rewrite Z.sub_diag. change (divide_and_round 0 2) with 0. lia.
  - pose proof (divide_and_round_half (t2 - t1)) as (_ & _ & H & _). lia.
Qed.

Lemma route_point_of_row db u d p :
  p ∈ get_route_points db u d ->
  DATE (fromisoformat (pt_recorded_at p)) = d /\
  exists r, points db !! pt_id p = Some r /\ user_id r = u /\
            recorded_at r = fromisoformat (pt_recorded_at p).
Proof.
  intros (r & Hr & Hon & Hp)%elem_of_get_route_points.
  apply on_route_spec in Hon as (Hu & Hd & _).
  apply to_route_point_Some in Hp as (lat & lon & _ & _ & Hp).
  assert (Ht : fromisoformat (pt_recorded_at p) = recorded_at r)
    by (rewrite Hp; done).
  rewrite Ht. split; [done|]. by exists r.
Qed.

Lemma collides_inv db u ts :
  collides db u ts = true ->
  exists id r, points db !! id = Some r /\ user_id r = u /\ recorded_at r = ts.
Proof.
  unfold collides. rewrite bool_decide_eq_true. intros [id Hid].
  destruct (rows_where (same_user_time u ts) (points db)) as [|[id' r] l]
    eqn:Hrows; [done|].
  assert (Hin : (id', r) ∈ rows_where (same_user_time u ts) (points db))
    by (rewrite Hrows; left).
  apply elem_of_rows_where in Hin as [Hr Hsame].
  unfold same_user_time in Hsame.
  rewrite andb_true_iff, !Z.eqb_eq in Hsame. exists id', r. tauto.
Qed.

Section Landing.

Variable math_sin : float -> exc float.
Variable math_cos : float -> exc float.
Variable math_atan2 : float -> float -> exc float.

Local Abbreviation gap' := (best_gap math_sin math_cos math_atan2).
Local Abbreviation find' :=
  (find_insertion_timestamp math_sin math_cos math_atan2).
Local Abbreviation add' := (add_point_to_route math_sin math_cos math_atan2).

(** The candidate timestamp on a route read from the table. *)
Lemma candidate_of_gap db u d lat lon b m :
  let route := get_route_points db u d in
  2 <= len route ->
  gap' route lat lon = OK (b, m) ->
  exists p q,
    route !! Z.to_nat b = Some p /\ route !! S (Z.to_nat b) = Some q /\
    let t_prev := fromisoformat (pt_recorded_at p) in
    let t_next := fromisoformat (pt_recorded_at q) in
    find' db u d lat lon
    = OK (t_prev + divide_and_round (t_next - t_prev) 2) /\
    t_prev <= t_next /\ DATE t_prev = d /\ DATE t_next = d.
Proof.
  cbv zeta. intros Hlen Hrun.
  pose proof (best_gap_position_range _ _ _ _ _ _ _ _ Hlen Hrun) as Hb.
  destruct (midpoint_timestamp_in_range _ b Hb) as (p & q & Hp & Hq & Hts).
  replace (Z.to_nat (b + 1)) with (S (Z.to_nat b)) in Hq by lia.
  exists p, q. split; [done|]. split; [done|]. split.
  { unfold find_insertion_timestamp.
    by rewrite (insertion_timestamp_of_gap _ _ _ _ _ _ _ _ Hlen Hrun). }
  split.
  - apply (StronglySorted_lookup_lt _ _ (Z.to_nat b) (S (Z.to_nat b)) p q
             (get_route_points_ascending db u d) Hp Hq). lia.
  - split; eapply route_point_of_row, list_elem_of_lookup_2; done.
Qed.

(** X4: on a route read from the table, with at least two points, the
    candidate timestamp is not before the earlier neighbour of the chosen gap
    nor after the later one, also when the two share a timestamp, and it falls
    on the date of the route. *)
Theorem candidate_within_route db u d lat lon b m :
  let route := get_route_points db u d in
  2 <= len route ->
  gap' route lat lon = OK (b, m) ->
  exists p q ts,
    route !! Z.to_nat b = Some p /\ route !! S (Z.to_nat b) = Some q /\
    find' db u d lat lon = OK ts /\
    fromisoformat (pt_recorded_at p) <= ts
      <= fromisoformat (pt_recorded_at q) /\
    DATE ts = d.
Proof.
  cbv zeta. intros Hlen Hrun.
  destruct (candidate_of_gap db u d lat lon b m Hlen Hrun)
    as (p & q & Hp & Hq & Hfind & Hle & Hdp & Hdq).
  cbv zeta in Hfind. exists p, q. eexists.
  split; [done|]. split; [done|]. split; [exact Hfind|].
  pose proof (midpoint_between _ _ Hle) as Hmid.
  split; [done|]. by apply (DATE_between _ _ _ _ Hdp Hdq).
Qed.

Lemma find_returns_gap db u d lat lon ts :
  2 <= len (get_route_points db u d) ->
  find' db u d lat lon = OK ts ->
  exists b m, gap' (get_route_points db u d) lat lon = OK (b, m).
Proof.
  intros Hlen. unfold find_insertion_timestamp, insertion_timestamp.
  destruct (len _ <? 2) eqn:E; [lia|].
  destruct (gap' _ lat lon) as [[b m]|e]; [eauto|done].
Qed.

Lemma get_route_points_ext db1 db2 u d :
  points db1 = points db2 ->
  get_route_points db1 u d = get_route_points db2 u d.
Proof. unfold get_route_points. by intros ->. Qed.

Lemma added_row_on_route u u' d' lat lon ts acc alt id :
  on_route u' d' id (manual_point u lat lon ts acc alt)
  = (u =? u') && (DATE ts =? d').
Proof. unfold on_route, has_coordinates. simpl. by rewrite andb_true_r. Qed.

(** A successful run stored the manual point under the id it returns. *)
Lemma add_point_added db u d lat lon alt acc id stamp msg :
  returned (add' db u d lat lon alt acc) = OK (PointAdded id stamp msg) ->
  exists ts ts',
    find' db u d lat lon = OK ts /\
    ts' = (if collides db u ts then ts + seconds 5 else ts) /\
    id = points_id_seq db /\ stamp = isoformat ts' /\
    points db !! id = None /\
    points (db_after (add' db u d lat lon alt acc))
    = <[id := manual_point u lat lon ts' acc alt]> (points db).
Proof.
  intros Hret. destruct (find' db u d lat lon) as [ts|e] eqn:Hfind.
  - pose proof (add_point_decided _ _ _ db u d lat lon alt acc ts Hfind)
      as Hrun. cbv zeta in Hrun. destruct (refused db _).
    + destruct Hrun as [Hfail _]. congruence.
    + destruct Hrun as (Hok & Hdb & Hfresh). rewrite Hok in Hret.
      injection Hret as <- <- <-. exists ts. eexists.
      split; [done|]. split; [done|]. rewrite Hdb. done.
  - unfold add_point_to_route in Hret. rewrite Hfind in Hret. done.
Qed.

(** X5: when a point is added to a route of at least two points and no row
    of the user has the candidate timestamp, the point is stamped with the
    candidate, and the route read back for the same date is the route before
    together with one new point, which carries the returned id and the
    candidate timestamp. *)
Theorem added_point_joins_route db u d lat lon alt acc ts id stamp msg :
  2 <= len (get_route_points db u d) ->
  find' db u d lat lon = OK ts ->
  (forall k r, points db !! k = Some r -> user_id r = u ->
               recorded_at r <> ts) ->
  returned (add' db u d lat lon alt acc) = OK (PointAdded id stamp msg) ->
  stamp = isoformat ts /\
  exists new_point,
    pt_id new_point = id /\ pt_recorded_at new_point = isoformat ts /\
    get_route_points (db_after (add' db u d lat lon alt acc)) u d
    ≡ₚ new_point :: get_route_points db u d.
Proof.
  intros Hlen Hfind Hfree Hret.
  destruct (add_point_added _ _ _ _ _ _ _ _ _ _ Hret)
    as (ts0 & ts' & Hfind0 & Hts' & -> & -> & Hfresh & Hdb).
  rewrite Hfind in Hfind0. injection Hfind0 as <-.
  assert (Hno : collides db u ts = false).
  { destruct (collides db u ts) eqn:E; [|done].
    apply collides_inv in E as (k & r & Hr & Hu & Ht). by destruct (Hfree k r). }
  rewrite Hno in Hts'. subst ts'. split; [done|].
  destruct (find_returns_gap _ _ _ _ _ _ Hlen Hfind) as (b & m & Hgap).
  destruct (candidate_of_gap db u d lat lon b m Hlen Hgap)
    as (p & q & _ & _ & Hfind' & Hle & Hdp & Hdq).
  cbv zeta in Hfind'. rewrite Hfind in Hfind'. injection Hfind' as ->.
  pose proof (DATE_between _ _ _ _ Hdp Hdq (midpoint_between _ _ Hle)) as Hd.
  eexists. split; [|split]; cycle 2.
  - rewrite (get_route_points_insert db _ _ _ u d Hfresh Hdb).
    rewrite added_row_on_route, Hd, !Z.eqb_refl. simpl. reflexivity.
  - done.
  - done.
Qed.

(** X6: the 5-second shift does not look at the neighbours.  When a row of
    the user sits on the candidate timestamp and the two points of the chosen
    gap are less than 10 seconds apart, the row sent to the store is stamped
    at or after the later neighbour: the new point no longer sorts between
    the two. *)
Theorem shift_reaches_next_neighbour db u d lat lon alt acc b m p q pid r :
  let route := get_route_points db u d in
  let t_prev := fromisoformat (pt_recorded_at p) in
  let t_next := fromisoformat (pt_recorded_at q) in
  2 <= len route ->
  gap' route lat lon = OK (b, m) ->
  route !! Z.to_nat b = Some p -> route !! S (Z.to_nat b) = Some q ->
  t_next - t_prev < seconds 10 ->
  points db !! pid = Some r -> user_id r = u ->
  recorded_at r = t_prev + divide_and_round (t_next - t_prev) 2 ->
  exists row,
    statements (add' db u d lat lon alt acc)
    = [SelectIdByUserTime u (recorded_at r); InsertPoint row] /\
    recorded_at row = recorded_at r + seconds 5 /\
    t_next <= recorded_at row.
Proof.
  cbv zeta. intros Hlen Hgap Hp Hq Hclose Hr Hu Ht.
  destruct (candidate_of_gap db u d lat lon b m Hlen Hgap)
    as (p' & q' & Hp' & Hq' & Hfind & Hle & _).
  rewrite Hp in Hp'. rewrite Hq in Hq'.
  injection Hp' as <-. injection Hq' as <-. cbv zeta in Hfind.
  rewrite <- Ht in Hfind.
  destruct (add_point_run _ _ _ db u d lat lon alt acc _ Hfind) as [Hst _].
  rewrite (collides_existing db u _ pid r Hr Hu eq_refl) in Hst.
  eexists. split; [exact Hst|]. simpl. split; [done|].
  pose proof (divide_and_round_half
                (fromisoformat (pt_recorded_at q)
                 - fromisoformat (pt_recorded_at p))) as (Hhalf & _).
  unfold seconds in *. lia.
Qed.

(** X7: a second collision is not resolved.  When rows of the user sit both
    on the candidate timestamp and 5 seconds after it, a store with a unique
    index on (user, timestamp) rejects the insert and nothing is kept; a
    store without one keeps the new row beside the old one, two rows of the
    user with the same timestamp. *)
Theorem second_collision_unresolved db u d lat lon alt acc ts
    pid1 r1 pid2 r2 :
  find' db u d lat lon = OK ts ->
  points db !! pid1 = Some r1 -> user_id r1 = u -> recorded_at r1 = ts ->
  points db !! pid2 = Some r2 -> user_id r2 = u ->
  recorded_at r2 = ts + seconds 5 ->
  let o := add' db u d lat lon alt acc in
  (unique_user_time db = true ->
   returned o = OK (Failure (StrOf IntegrityError)) /\
   points (db_after o) = points db) /\
  (unique_user_time db = false -> points db !! points_id_seq db = None ->
   exists row,
     returned o = OK (PointAdded (points_id_seq db)
                                 (isoformat (ts + seconds 5))
                                 (Literal "Point added successfully")) /\
     points (db_after o) !! points_id_seq db = Some row /\
     points (db_after o) !! pid2 = Some r2 /\
     points_id_seq db <> pid2 /\
     user_id row = user_id r2 /\ recorded_at row = recorded_at r2).
Proof.
  intros Hfind Hr1 Hu1 Ht1 Hr2 Hu2 Ht2.
  pose proof (add_point_decided _ _ _ db u d lat lon alt acc ts Hfind)
    as Hrun.
  rewrite (collides_existing db u ts pid1 r1 Hr1 Hu1 Ht1) in Hrun.
  cbv zeta in *. unfold refused in Hrun. simpl in Hrun. split.
  - intros Huniq. rewrite Huniq in Hrun.
    rewrite (bool_decide_eq_true_2 (rows_where _ _ ≠ [])) in Hrun.
    + rewrite orb_true_r in Hrun. destruct Hrun as [-> ->]. done.
    + intros Hnil.
      assert (Hin : (pid2, r2) ∈ rows_where
                (same_user_time u (ts + seconds 5)) (points db)).
      { apply elem_of_rows_where. split; [done|]. unfold same_user_time.
        by rewrite Hu2, Ht2, !Z.eqb_refl. }
      rewrite Hnil in Hin. by apply elem_of_nil in Hin.
  - intros Huniq Hfresh. rewrite Huniq in Hrun.
    rewrite (bool_decide_eq_false_2 (is_Some _)) in Hrun
      by (rewrite Hfresh; by intros [? ?]).
    simpl in Hrun. destruct Hrun as (-> & -> & _). simpl.
    assert (Hne : points_id_seq db <> pid2) by congruence.
    eexists. split; [done|]. split; [apply lookup_insert_eq|].
    split; [by rewrite lookup_insert_ne|]. by rewrite Hu2, Ht2.
Qed.

(** X8: deleting, as the same user, the point that [add_point_to_route] has
    just returned succeeds and gives back the table as it was before the
    point was added. *)
Theorem delete_undoes_add db u d lat lon alt acc id stamp msg :
  returned (add' db u d lat lon alt acc) = OK (PointAdded id stamp msg) ->
  let db1 := db_after (add' db u d lat lon alt acc) in
  returned (delete_point db1 u id)
  = OK (PointDeleted (Literal "Point deleted successfully")) /\
  points (db_after (delete_point db1 u id)) = points db.
Proof.
  intros Hret.
  destruct (add_point_added _ _ _ _ _ _ _ _ _ _ Hret)
    as (ts & ts' & _ & _ & _ & _ & Hfresh & Hdb).
  cbv zeta.
  rewrite (delete_point_owned _ u id (manual_point u lat lon ts' acc alt));
    [|rewrite Hdb; apply lookup_insert_eq|done].
  simpl. split; [done|]. rewrite Hdb, delete_insert_eq. by apply delete_id.
Qed.

(** X9: adding or deleting a point for one user leaves the routes of every
    other user as they were, on every date. *)
Theorem other_users_routes_untouched db u u' d d' lat lon alt acc pid :
  u' <> u ->
  get_route_points (db_after (add' db u d lat lon alt acc)) u' d'
  ≡ₚ get_route_points db u' d' /\
  get_route_points (db_after (delete_point db u pid)) u' d'
  ≡ₚ get_route_points db u' d'.
Proof.
  intros Hne. split.
  - destruct (find' db u d lat lon) as [ts|e] eqn:Hfind.
    + pose proof (add_point_decided _ _ _ db u d lat lon alt acc ts Hfind)
        as Hrun. cbv zeta in Hrun. destruct (refused db _).
      * destruct Hrun as [_ ->]. by rewrite (get_route_points_ext _ db).
      * destruct Hrun as (_ & Hdb & Hfresh).
        rewrite (get_route_points_insert db _ (points_id_seq db)
                   (manual_point u lat lon
                      (if collides db u ts then ts + seconds 5 else ts)
                      acc alt) u' d' Hfresh) by (by rewrite Hdb).
        rewrite added_row_on_route.
        by rewrite (proj2 (Z.eqb_neq u u')).
    + unfold add_point_to_route. rewrite Hfind. done.
  - destruct (delete_point_cases db u pid) as [(r & Hr & Hu)|Hno].
    + rewrite (delete_point_owned db u pid r Hr Hu). simpl.
      rewrite (get_route_points_delete db
                 {| points := delete pid (points db);
                    points_id_seq := points_id_seq db;
                    unique_user_time := unique_user_time db |}
                 pid r u' d' Hr eq_refl).
      unfold on_route. rewrite Hu.
      by rewrite (proj2 (Z.eqb_neq u u')).
    + by rewrite (delete_point_refused db u pid Hno).
Qed.

(** X10: a route of one point recorded in the last 30 seconds of its day
    does not receive the point added to it: the timestamp, 30 seconds later
    (35 after a collision), is on the next day, so the route of the date is
    as before and the new point is on the route of the following date. *)
Theorem lone_point_at_day_end db u d lat lon alt acc p id stamp msg :
  get_route_points db u d = [p] ->
  days 1 - seconds 30 <= fromisoformat (pt_recorded_at p) `mod` days 1 ->
  returned (add' db u d lat lon alt acc) = OK (PointAdded id stamp msg) ->
  get_route_points (db_after (add' db u d lat lon alt acc)) u d ≡ₚ [p] /\
  exists p', p' ∈ get_route_points (db_after (add' db u d lat lon alt acc))
                    u (d + 1) /\
             pt_id p' = id.
Proof.
  intros Hroute Hlate Hret.
  destruct (add_point_added _ _ _ _ _ _ _ _ _ _ Hret)
    as (ts & ts' & Hfind & Hts' & _ & _ & Hfresh & Hdb).
  unfold find_insertion_timestamp in Hfind. rewrite Hroute in Hfind.
  injection Hfind as <-.
  destruct (route_point_of_row db u d p) as [Hd _];
    [rewrite Hroute; left|].
  set (t := fromisoformat (pt_recorded_at p)) in *.
  assert (Hnext : DATE ts' = d + 1).
  { apply DATE_bounds. apply DATE_bounds in Hd.
    pose proof (Z.div_mod t (days 1) ltac:(done)) as Hdm.
    assert (Hq : t `div` days 1 = d).
    { apply DATE_bounds. done. }
    rewrite Hq in Hdm. change (replace_Z (pt_recorded_at p))
      with (pt_recorded_at p) in Hts'. fold t in Hts'.
    unfold days, seconds in *. destruct (collides db u _); lia. }
  split.
  - rewrite (get_route_points_insert db _ _ _ u d Hfresh Hdb), Hroute.
    rewrite added_row_on_route, Hnext.
    by rewrite (proj2 (Z.eqb_neq (d + 1) d)) by lia; rewrite andb_false_r.
  - eexists. split.
    + rewrite (get_route_points_insert db _ _ _ u (d + 1) Hfresh Hdb).
      rewrite added_row_on_route, Hnext, !Z.eqb_refl. simpl. left.
    + done.
Qed.

End Landing.

(** ** Deleting again *)

(** X11: after a call of [delete_point], whatever it answered, no route of
    that user holds a point with that id, and the same call made again
    answers "Point not found or not authorized" and changes nothing. *)
Theorem delete_point_twice db u pid :
  let db1 := db_after (delete_point db u pid) in
  (forall d p, p ∈ get_route_points db1 u d -> pt_id p <> pid) /\
  delete_point db1 u pid
  = {| returned := OK not_found; db_after := db1;
       statements := [DeletePoint pid u] |}.
Proof.
  cbv zeta.
  assert (Hgone : points (db_after (delete_point db u pid)) !! pid = None \/
                  exists r, points (db_after (delete_point db u pid)) !! pid
                            = Some r /\ user_id r <> u).
  { destruct (delete_point_cases db u pid) as [(r & Hr & Hu)|Hno].
    - rewrite (delete_point_owned db u pid r Hr Hu). simpl. left.
      apply lookup_delete_eq.
    - by rewrite (delete_point_refused db u pid Hno). }
  split.
  - intros d p Hp Hid. apply route_point_of_row in Hp as (_ & r & Hr & Hu & _).
    rewrite Hid in Hr. destruct Hgone as [Hn|(r' & Hr' & Hne)]; congruence.
  - by apply delete_point_refused.
Qed.

(** ** More on the listing *)

Lemma elem_of_select_routes db u cutoff s :
  s ∈ select_routes db u cutoff <->
  5 <= len (qualifying db u cutoff (route_date s)) /\
  s = summarize (route_date s) (qualifying db u cutoff (route_date s)).
Proof.
  unfold select_routes.
  rewrite merge_sort_Permutation, list_elem_of_filter, list_elem_of_fmap.
  split.
  - intros [Hc (d & -> & Hd)]. rewrite group_is_qualifying in *. done.
  - intros [Hc Hs]. rewrite Hs. simpl. split; [done|].
    exists (route_date s). rewrite group_is_qualifying. split; [done|].
    rewrite elem_of_remove_dups.
    destruct (qualifying db u cutoff (route_date s)) as [|r g] eqn:Hq;
      [unfold len in Hc; simpl in Hc; lia|].
    assert (Hr : r ∈ qualifying db u cutoff (route_date s))
      by (rewrite Hq; left).
    pose proof Hr as Hd.
    apply elem_of_qualifying in Hd as (_ & _ & _ & _ & _ & Hd).
    rewrite <- group_is_qualifying in Hr.
    apply list_elem_of_filter in Hr as [_ Hr].
    rewrite <- Hd. by apply (list_elem_of_fmap_2 (DATE ∘ recorded_at)).
Qed.

Lemma counted_weaker u c c' d id r :
  c' <= c -> counted u c d id r = true -> counted u c' d id r = true.
Proof.
  unfold counted, in_window.
  rewrite !andb_true_iff, !Z.eqb_eq, !Z.leb_le. intros. intuition lia.
Qed.

Lemma counted_on_route u c d id r :
  counted u c d id r = true -> on_route u d id r = true.
Proof.
  unfold counted, in_window, on_route.
  rewrite !andb_true_iff. tauto.
Qed.

(** X12: a longer lookback whose cutoff is still a [datetime] (the call
    ends on [OverflowError] otherwise) lists every date a shorter one lists,
    with at least as many points. *)
Theorem longer_window_lists_more db now u n n' routes s :
  n <= n' ->
  representable now n' ->
  get_user_routes db now u n = OK routes ->
  s ∈ routes ->
  exists routes' s',
    get_user_routes db now u n' = OK routes' /\
    s' ∈ routes' /\
    route_date s' = route_date s /\
    point_count s <= point_count s'.
Proof.
  intros Hn Hrep [_ ->]%get_user_routes_OK [Hc Hs]%elem_of_select_routes.
  assert (Hsub : qualifying db u (now - days n) (route_date s)
                 `sublist_of`
                 qualifying db u (now - days n') (route_date s)).
  { rewrite !qualifying_counted. unfold rows_where. apply fmap_sublist.
    apply filter_sublist_mono. intros [id r]. simpl.
    apply counted_weaker. unfold days. lia. }
  apply sublist_length in Hsub.
  exists (select_routes db u (now - days n')),
         (summarize (route_date s)
            (qualifying db u (now - days n') (route_date s))).
  split; [|split; [|split; [done|]]].
  - by destruct (get_user_routes_run db now u n') as [[_ ->]|[? _]].
  - apply elem_of_select_routes. simpl. split; [|done].
    unfold len in *. lia.
  - rewrite Hs. simpl. unfold len. lia.
Qed.

(** X13: a listed route can be opened: for a summary of the listing,
    [get_route_points] on its date returns at least [point_count] points,
    hence at least 5, and the date is not before the date of the cutoff
    instant. *)
Theorem listed_route_has_its_points db now u n routes s :
  get_user_routes db now u n = OK routes ->
  s ∈ routes ->
  5 <= point_count s <= len (get_route_points db u (route_date s)) /\
  DATE (now - days n) <= route_date s.
Proof.
  intros [_ ->]%get_user_routes_OK [Hc Hs]%elem_of_select_routes.
  set (group := qualifying db u (now - days n) (route_date s)) in *.
  assert (Hcount : point_count s = len group) by (rewrite Hs; done).
  split; [split; [lia|]|].
  - rewrite Hcount. unfold len. rewrite length_get_route_points.
    unfold group. rewrite qualifying_counted, length_fmap.
    apply inj_le, sublist_length. unfold rows_where.
    apply filter_sublist_mono. intros [id r]. simpl.
    apply counted_on_route.
  - destruct group as [|r g] eqn:Hg;
      [unfold len in Hc; simpl in Hc; lia|].
    assert (Hr : r ∈ qualifying db u (now - days n) (route_date s))
      by (fold group; rewrite Hg; left).
    apply elem_of_qualifying in Hr as (_ & _ & Hcut & _ & _ & <-).
    unfold DATE. apply Z.div_le_mono; [lia|done].
Qed.

(** ** Users *)

Lemma remove_dups_NoDup {A : Type} `{EqDecision A} (l : list A) :
  NoDup l -> remove_dups l = l.
Proof.
  induction 1 as [|x l Hx Hl IH]; [done|]. simpl.
  destruct (decide_rel elem_of x l); [done|]. by rewrite IH.
Qed.

Lemma owns_a_point_spec tbl id :
  owns_a_point tbl id = true <->
  exists pid row, tbl !! pid = Some row /\ user_id row = id.
Proof.
  unfold owns_a_point. rewrite bool_decide_eq_true. split.
  - intros Hne.
    destruct (rows_where (fun _ r => user_id r =? id) tbl) as [|[pid row] l]
      eqn:Hrows; [done|].
    assert (Hin : (pid, row) ∈ rows_where (fun _ r => user_id r =? id) tbl)
      by (rewrite Hrows; left).
    apply elem_of_rows_where in Hin as [Hrow Hu%Z.eqb_eq]. eauto.
  - intros (pid & row & Hrow & Hu) Hnil.
    assert (Hin : (pid, row) ∈ rows_where (fun _ r => user_id r =? id) tbl)
      by (apply elem_of_rows_where; split; [done|by apply Z.eqb_eq]).
    rewrite Hnil in Hin. by apply elem_of_nil in Hin.
Qed.

(** X14: [get_users] lists exactly the users that own at least one point
    (with or without coordinates), each once.  The display name is the first
    name, a space and the last name only when both are set; as soon as one of
    them is null it is the e-mail address. *)
Theorem get_users_owners (collate : string -> string -> Prop)
    `{!RelDecision collate} (users : gmap Z user) (db : database) :
  let listed := get_users collate users db in
  (forall e, e ∈ listed <->
     exists r, users !! entry_id e = Some r /\
               (exists pid row, points db !! pid = Some row /\
                                user_id row = entry_id e) /\
               entry_email e = email r /\
               display_name e
               = match first_name r, last_name r with
                 | Some f, Some l => Some ((f +:+ " ") +:+ l)
                 | _, _ => email r
                 end) /\
  NoDup (entry_id <$> listed).
Proof.
  cbv zeta. unfold get_users.
  set (owners := filter (fun kr => owns_a_point (points db) kr.1 = true)
                        (map_to_list users)).
  assert (Hids : NoDup (entry_id <$> (to_user_entry <$> owners))).
  { rewrite <- list_fmap_compose.
    apply (sublist_NoDup _ (map_to_list users).*1);
      [apply NoDup_fst_map_to_list|].
    apply fmap_sublist. unfold owners. apply sublist_filter; apply _. }
  rewrite (remove_dups_NoDup (to_user_entry <$> owners))
    by (by apply NoDup_fmap_1 in Hids).
  split.
  - intros e. rewrite merge_sort_Permutation, list_elem_of_fmap. split.
    + intros ([id r] & -> & [Hown Hin]%list_elem_of_filter). simpl in *.
      apply elem_of_map_to_list in Hin. apply owns_a_point_spec in Hown.
      exists r. repeat split; try done.
      by destruct (first_name r), (last_name r).
    + intros (r & Hr & Hown & Hmail & Hname). exists (entry_id e, r). split.
      * destruct e as [id em dn]. unfold to_user_entry. simpl in *.
        rewrite Hmail, Hname. f_equal.
        by destruct (first_name r), (last_name r).
      * apply list_elem_of_filter. simpl. split.
        -- by apply owns_a_point_spec.
        -- by apply elem_of_map_to_list.
  - by rewrite merge_sort_Permutation.
Qed.

(** ** The DELETE route *)

(** X15: called with the ids its route accepts (natural numbers), the DELETE
    view answers 200 exactly when the point existed and belonged to the
    user; otherwise it answers 400 with the body "Point not found or not
    authorized" and an unchanged database, for a missing id and for another
    user's id alike. *)
Theorem delete_point_view_status db (u pid : N) :
  let response := delete_point_view db u pid in
  (response.1.2 = 200 <->
   exists r, points db !! Z.of_N pid = Some r /\ user_id r = Z.of_N u) /\
  (response.1.2 <> 200 ->
   response = (JsonResult not_found, 400, db)).
Proof.
  cbv zeta. unfold delete_point_view.
  destruct (delete_point_cases db (Z.of_N u) (Z.of_N pid))
    as [(r & Hr & Hu)|Hno].
  - rewrite (delete_point_owned db _ _ r Hr Hu). simpl.
    split; [split; eauto|done].
  - rewrite (delete_point_refused db _ _ Hno). simpl. split; [|done].
    split; [done|]. intros (r & Hr & Hu).
    destruct Hno as [Hn|(r' & Hr' & Hne)]; congruence.
Qed.

(** ** A coordinate that is not a number *)

Module FloatNaN.

Lemma add_nan_l x : (nan + x)%float = nan.
Proof.
  apply Prim2SF_inj. rewrite add_spec. change (Prim2SF nan) with S754_nan.
  by destruct (Prim2SF x) as [[]|[]| |[] ? ?].
Qed.

Lemma add_nan_r x : (x + nan)%float = nan.
Proof.
  apply Prim2SF_inj. rewrite add_spec. change (Prim2SF nan) with S754_nan.
  by destruct (Prim2SF x) as [[]|[]| |[] ? ?].
Qed.

Lemma sub_nan_l x : (nan - x)%float = nan.
Proof.
  apply Prim2SF_inj. rewrite sub_spec. change (Prim2SF nan) with S754_nan.
  by destruct (Prim2SF x) as [[]|[]| |[] ? ?].
Qed.

Lemma sub_nan_r x : (x - nan)%float = nan.
Proof.
  apply Prim2SF_inj. rewrite sub_spec. change (Prim2SF nan) with S754_nan.
  by destruct (Prim2SF x) as [[]|[]| |[] ? ?].
Qed.

Lemma mul_nan_r x : (x * nan)%float = nan.
Proof.
  apply Prim2SF_inj. rewrite mul_spec. change (Prim2SF nan) with S754_nan.
  by destruct (Prim2SF x) as [[]|[]| |[] ? ?].
Qed.

End FloatNaN.

Section NotANumber.

Variable math_sin : float -> exc float.
Variable math_cos : float -> exc float.
Variable math_atan2 : float -> float -> exc float.

Local Abbreviation haversine' :=
  (haversine_distance math_sin math_cos math_atan2).
Local Abbreviation penalty' :=
  (distance_penalty math_sin math_cos math_atan2).

Hypothesis sin_nan : math_sin nan = OK nan.
Hypothesis atan2_nan : math_atan2 nan nan = OK nan.

Lemma haversine_nan lat1 lon1 lat2 lon2 dist :
  lat1 = nan \/ lon1 = nan ->
  haversine' lat1 lon1 lat2 lon2 = OK dist -> dist = nan.
Proof.
  unfold haversine_distance, math_radians.
  intros [-> | ->]; rewrite FloatNaN.sub_nan_r;
    change (nan * degToRad / 2)%float with nan;
    repeat first
      [ rewrite sin_nan; simpl
      | match goal with
        | |- context [bind (math_sin ?x)] =>
            destruct (math_sin x); [simpl|done]
        | |- context [bind (math_cos ?x)] =>
            destruct (math_cos x); [simpl|done]
        end ];
    rewrite ?FloatNaN.mul_nan_r, ?FloatNaN.add_nan_l, ?FloatNaN.add_nan_r;
    change (1 - nan)%float with nan;
    change (math_sqrt nan) with (@OK float nan); simpl;
    rewrite atan2_nan; simpl; by intros [= <-].
Qed.

Lemma penalty_nan points lat lon i pen :
  lat = nan \/ lon = nan ->
  penalty' points lat lon i = OK pen -> pen = nan.
Proof.
  intros Hnan. unfold distance_penalty.
  destruct (py_index points i) as [p1|]; [simpl|done].
  destruct (py_index points (i + 1)) as [p2|]; [simpl|done].
  destruct (haversine' lat lon (pt_latitude p1) (pt_longitude p1))
    as [d1|] eqn:Hd1; [simpl|done].
  apply (haversine_nan _ _ _ _ _ Hnan) in Hd1 as ->.
  destruct (haversine' lat lon _ _) as [d2|]; [simpl|done].
  destruct (haversine' _ _ _ _) as [d0|]; [simpl|done].
  intros [= <-]. by rewrite FloatNaN.add_nan_l, FloatNaN.sub_nan_l.
Qed.

(** X16: a new point whose latitude or longitude is NaN goes to the first
    gap.  With a [math.sin] and a [math.atan2] that return NaN on NaN, every
    penalty is NaN, no comparison with the running minimum succeeds, and on a
    route of at least two points whose distance computations return the loop
    ends with [best_position = 0] and the minimum still infinite; the
    timestamp is the one between the first two points. *)
Theorem nan_coordinate_first_gap points lat lon :
  2 <= len points ->
  lat = nan \/ lon = nan ->
  (forall i, 0 <= i < len points - 1 ->
             exists pen, penalty' points lat lon i = OK pen) ->
  best_gap math_sin math_cos math_atan2 points lat lon = OK (0, infinity) /\
  insertion_timestamp math_sin math_cos math_atan2 points lat lon
  = midpoint_timestamp points 0.
Proof.
  intros Hlen Hnan Hpen.
  destruct (best_gap_returns _ _ _ points lat lon Hpen) as [st Hrun].
  assert (Hst : st = (0, infinity)).
  { unfold best_gap in Hrun.
    apply (for_each_invariant _ (fun _ st => st = (0, infinity)) _ _ _)
      in Hrun; [done| |done].
    intros i x s s' _ -> Hstep.
    apply scan_gap_cases in Hstep as (p & Hp & Hcase).
    apply (penalty_nan _ _ _ _ _ Hnan) in Hp as ->.
    destruct Hcase as [[Hlt _]|[_ ->]]; [|done]. simpl in Hlt. done. }
  subst st. split; [done|].
  by apply (insertion_timestamp_of_gap _ _ _ _ _ _ _ infinity).
Qed.

End NotANumber.

(** ** Further compositions *)

(** X17: deleting a point that is on a route of the user succeeds, and the
    route read before is the deleted point together with the route read
    afterwards. *)
Theorem delete_removes_from_route db u d pid p :
  p ∈ get_route_points db u d -> pt_id p = pid ->
  returned (delete_point db u pid)
  = OK (PointDeleted (Literal "Point deleted successfully")) /\
  get_route_points db u d
  ≡ₚ p :: get_route_points (db_after (delete_point db u pid)) u d.
Proof.
  intros (r & Hr & Hon & Hp)%elem_of_get_route_points <-.
  pose proof Hon as (Hu & _)%on_route_spec.
  rewrite (delete_point_owned db u (pt_id p) r Hr Hu). simpl.
  split; [done|].
  rewrite (get_route_points_delete db
             {| points := delete (pt_id p) (points db);
                points_id_seq := points_id_seq db;
                unique_user_time := unique_user_time db |}
             (pt_id p) r u d Hr eq_refl).
  change (on_route u d (pt_id p) r) with (on_route u d 0 r).
  by rewrite Hon, Hp.
Qed.

Section Compositions.

Variable math_sin : float -> exc float.
Variable math_cos : float -> exc float.
Variable math_atan2 : float -> float -> exc float.

(** X18: on a route of exactly two points the position drawn plays no part:
    whenever a timestamp is returned it is the rounded midpoint of the two
    points, for every latitude and longitude. *)
Theorem two_point_route_ignores_position p q lat lon ts :
  insertion_timestamp math_sin math_cos math_atan2 [p; q] lat lon = OK ts ->
  ts = fromisoformat (pt_recorded_at p)
       + divide_and_round (fromisoformat (pt_recorded_at q)
                           - fromisoformat (pt_recorded_at p)) 2.
Proof.
  intros Hts.
  assert (Hlen : 2 <= len [p; q]) by done.
  unfold insertion_timestamp in Hts. change (len [p; q] <? 2) with false in Hts.
  destruct (best_gap math_sin math_cos math_atan2 [p; q] lat lon)
    as [[b m]|e] eqn:Hgap; [|done].
  pose proof (best_gap_position_range _ _ _ _ _ _ _ _ Hlen Hgap) as Hb.
  change (len [p; q] - 2) with 0 in Hb.
  assert (b = 0) as -> by lia. simpl in Hts. by injection Hts as <-.
Qed.

End Compositions.

(** ** The sample routes again *)

Example users_of_the_walk :
  get_users bytewise people user7_walk
  = [ {| entry_id := 7; entry_email := Some "ada@example.org";
         display_name := Some "Ada Lovelace" |};
      {| entry_id := 8; entry_email := Some "bob@example.org";
         display_name := Some "bob@example.org" |} ].
Proof. vm_compute. reflexivity. Qed.

Example walk_listing :
  get_user_routes user7_walk (seconds 1704110000) 7 1 = OK [walk_summary] /\
  (route_date walk_summary, point_count walk_summary) = (19723, 6).
Proof. split; vm_compute; reflexivity. Qed.

(** X4 on the route of user 7. *)
Lemma candidate_within_route_user7 :
  exists p q ts,
    get_route_points user7 7 19723 !! Z.to_nat 0 = Some p /\
    get_route_points user7 7 19723 !! S (Z.to_nat 0) = Some q /\
    find_insertion_timestamp sin_1 cos_1 atan2_1 user7 7 19723 40 (-73.5)
    = OK ts /\
    fromisoformat (pt_recorded_at p) <= ts
      <= fromisoformat (pt_recorded_at q) /\
    DATE ts = 19723.
Proof.
  apply (candidate_within_route sin_1 cos_1 atan2_1 user7 7 19723 40 (-73.5)
           0 user7_minimum).
  - vm_compute. discriminate.
  - vm_compute. reflexivity.
Defined.

Lemma user7_rows k r :
  points user7 !! k = Some r ->
  r = fix_at 7 (Some (40, -74)%float) (seconds 1704103200) \/
  r = fix_at 7 (Some (40, -73)%float) (seconds 1704103800).
Proof.
  intros Hr. apply elem_of_map_to_list in Hr.
  change (map_to_list (points user7))
    with [(2, fix_at 7 (Some (40, -73)%float) (seconds 1704103800));
          (1, fix_at 7 (Some (40, -74)%float) (seconds 1704103200))] in Hr.
  apply elem_of_cons in Hr as [[= _ ->]|Hr]; [by right|].
  apply list_elem_of_singleton in Hr as [= _ ->]. by left.
Qed.

(** X5 on the route of user 7. *)
Lemma added_point_joins_route_user7 :
  exists new_point,
    pt_id new_point = 3 /\
    pt_recorded_at new_point = isoformat (seconds 1704103500) /\
    get_route_points
      (db_after (add_point_to_route sin_1 cos_1 atan2_1 user7 7 19723
                   40 (-73.5) None None)) 7 19723
    ≡ₚ new_point :: get_route_points user7 7 19723.
Proof.
  refine (proj2 (added_point_joins_route sin_1 cos_1 atan2_1 user7 7 19723
                   40 (-73.5) None None (seconds 1704103500) 3
                   (isoformat (seconds 1704103500))
                   (Literal "Point added successfully") _ _ _ _)).
  - vm_compute. discriminate.
  - vm_compute. reflexivity.
  - intros k r Hr _. destruct (user7_rows k r Hr) as [-> | ->];
      vm_compute; discriminate.
  - vm_compute. reflexivity.
Defined.

(** X6 on two points four seconds apart with a row halfway. *)
Lemma shift_reaches_next_neighbour_tight :
  exists row,
    statements (add_point_to_route sin_1 cos_1 atan2_1 user7_tight 7 19723
                  40 (-73.5) None None)
    = [SelectIdByUserTime 7 (seconds 1704103202); InsertPoint row] /\
    recorded_at row = seconds 1704103202 + seconds 5 /\
    seconds 1704103204 <= recorded_at row.
Proof.
  eapply (shift_reaches_next_neighbour sin_1 cos_1 atan2_1 user7_tight
            7 19723 40 (-73.5) None None 0 _
            (stop 1 40 (-74) (seconds 1704103200))
            (stop 2 40 (-73) (seconds 1704103204))
            3 (fix_at 7 None (seconds 1704103202))).
  - vm_compute. discriminate.
  - vm_compute. reflexivity.
  - vm_compute. reflexivity.
  - vm_compute. reflexivity.
  - vm_compute. reflexivity.
  - vm_compute. reflexivity.
  - reflexivity.
  - vm_compute. reflexivity.
Defined.

(** X7 with rows at 10:05:00 and 10:05:05 and a unique index. *)
Lemma second_collision_unresolved_crowded :
  returned (add_point_to_route sin_1 cos_1 atan2_1 user7_crowded 7 19723
              40 (-73.5) None None)
  = OK (Failure (StrOf IntegrityError)) /\
  points (db_after (add_point_to_route sin_1 cos_1 atan2_1 user7_crowded
                      7 19723 40 (-73.5) None None))
  = points user7_crowded.
Proof.
  refine (proj1 (second_collision_unresolved sin_1 cos_1 atan2_1
                   user7_crowded 7 19723 40 (-73.5) None None
                   (seconds 1704103500)
                   3 (fix_at 7 None (seconds 1704103500))
                   4 (fix_at 7 None (seconds 1704103505))
                   _ _ _ _ _ _ _) _).
  - vm_compute. reflexivity.
  - vm_compute. reflexivity.
  - reflexivity.
  - reflexivity.
  - vm_compute. reflexivity.
  - reflexivity.
  - reflexivity.
  - reflexivity.
Defined.

(** X8 on the route of user 7. *)
Lemma delete_undoes_add_user7 :
  let db1 := db_after (add_point_to_route sin_1 cos_1 atan2_1 user7 7 19723
                         40 (-73.5) None None) in
  returned (delete_point db1 7 3)
  = OK (PointDeleted (Literal "Point deleted successfully")) /\
  points (db_after (delete_point db1 7 3)) = points user7.
Proof.
  apply (delete_undoes_add sin_1 cos_1 atan2_1 user7 7 19723 40 (-73.5)
           None None 3 (isoformat (seconds 1704103500))
           (Literal "Point added successfully")).
  vm_compute. reflexivity.
Defined.

(** X9: user 8 while user 7 edits. *)
Lemma other_users_routes_untouched_walk :
  get_route_points
    (db_after (add_point_to_route sin_1 cos_1 atan2_1 user7_walk 7 19723
                 40 (-73.5) None None)) 8 19723
  ≡ₚ get_route_points user7_walk 8 19723 /\
  get_route_points (db_after (delete_point user7_walk 7 1)) 8 19723
  ≡ₚ get_route_points user7_walk 8 19723.
Proof.
  apply (other_users_routes_untouched sin_1 cos_1 atan2_1 user7_walk 7 8
           19723 19723 40 (-73.5) None None 1).
  discriminate.
Defined.

(** X10 on the point of 23:59:45. *)
Lemma lone_point_at_day_end_late_walker :
  get_route_points
    (db_after (add_point_to_route sin_1 cos_1 atan2_1 late_walker 9 19723
                 1 2 None None)) 9 19723
  ≡ₚ [stop 1 40 (-74) (seconds 1704153585)] /\
  exists p',
    p' ∈ get_route_points
           (db_after (add_point_to_route sin_1 cos_1 atan2_1 late_walker
                        9 19723 1 2 None None)) 9 (19723 + 1) /\
    pt_id p' = 2.
Proof.
  apply (lone_point_at_day_end sin_1 cos_1 atan2_1 late_walker 9 19723 1 2
           None None (stop 1 40 (-74) (seconds 1704153585)) 2
           (isoformat (seconds 1704153615))
           (Literal "Point added successfully")).
  - vm_compute. reflexivity.
  - vm_compute. discriminate.
  - vm_compute. reflexivity.
Defined.

Lemma walk_summary_listed :
  get_user_routes user7_walk (seconds 1704110000) 7 1 = OK [walk_summary].
Proof. vm_compute. reflexivity. Qed.

Lemma walk_representable (n : Z) :
  0 <= n <= 30 -> representable (seconds 1704110000) n.
Proof.
  unfold representable, datetime_min, datetime_max, seconds, days. lia.
Qed.

(** C7 on the walk of user 7, at 11:53:20 that day, looking one day back. *)
Lemma get_user_routes_dense_dates_walk :
  exists routes,
    get_user_routes user7_walk (seconds 1704110000) 7 1 = OK routes /\
    ((exists s, s ∈ routes /\ route_date s = 19723) <->
     5 <= len (qualifying user7_walk 7 (seconds 1704110000 - days 1) 19723)) /\
    StronglySorted (fun a b => route_date b < route_date a) routes.
Proof.
  destruct (proj2 (get_user_routes_dense_dates user7_walk
                     (seconds 1704110000) 7 1))
    as (routes & Hrun & Hdates & Hsorted & _).
  - apply walk_representable. lia.
  - exists routes. split; [exact Hrun|]. split; [apply Hdates|exact Hsorted].
Defined.

(** The walk of user 7 listed a day later, at 10:03:30, looking one day
    back: the date of the walk is the date of the cutoff and holds six
    points of the user with coordinates, four of them before 10:03:30, and
    the listing is empty.  Looking 800000 days back, the call ends on
    [OverflowError]. *)
Lemma cutoff_day_not_listed :
  get_user_routes user7_walk (seconds 1704189810) 7 1 = OK [] /\
  DATE (seconds 1704189810 - days 1) = 19723 /\
  DATE (seconds 1704189810) = 19724 /\
  len (points_on_date user7_walk 7 19723) = 6 /\
  len (qualifying user7_walk 7 (seconds 1704189810 - days 1) 19723) = 2 /\
  get_user_routes user7_walk (seconds 1704110000) 7 800000
  = Raise OverflowError.
Proof. repeat split; vm_compute; reflexivity. Qed.

(** X12 on the walk of user 7: one day back, then thirty. *)
Lemma longer_window_lists_more_walk :
  exists routes' s',
    get_user_routes user7_walk (seconds 1704110000) 7 30 = OK routes' /\
    s' ∈ routes' /\
    route_date s' = route_date walk_summary /\
    point_count walk_summary <= point_count s'.
Proof.
  apply (longer_window_lists_more user7_walk (seconds 1704110000) 7 1 30
           [walk_summary] walk_summary).
  - lia.
  - apply walk_representable. lia.
  - exact walk_summary_listed.
  - left.
Defined.

(** X13 on the walk of user 7. *)
Lemma listed_route_has_its_points_walk :
  5 <= point_count walk_summary
    <= len (get_route_points user7_walk 7 (route_date walk_summary)) /\
  DATE (seconds 1704110000 - days 1) <= route_date walk_summary.
Proof.
  apply (listed_route_has_its_points user7_walk (seconds 1704110000) 7 1
           [walk_summary] walk_summary).
  - exact walk_summary_listed.
  - left.
Defined.

(** X16 on the straight line, with a NaN latitude. *)
Lemma nan_coordinate_first_gap_line :
  best_gap sin_1 cos_1 atan2_1 straight_line nan 0.5 = OK (0, infinity) /\
  insertion_timestamp sin_1 cos_1 atan2_1 straight_line nan 0.5
  = midpoint_timestamp straight_line 0.
Proof.
  apply (nan_coordinate_first_gap sin_1 cos_1 atan2_1).
  - reflexivity.
  - vm_compute. reflexivity.
  - vm_compute. discriminate.
  - by left.
  - intros i Hi. change (len straight_line - 1) with 2 in Hi.
    assert (i = 0 \/ i = 1) as [-> | ->] by lia; eexists;
      vm_compute; reflexivity.
Defined.

(** X17 on the first point of user 7. *)
Lemma delete_removes_from_route_user7 :
  returned (delete_point user7 7 1)
  = OK (PointDeleted (Literal "Point deleted successfully")) /\
  get_route_points user7 7 19723
  ≡ₚ stop 1 40 (-74) (seconds 1704103200)
     :: get_route_points (db_after (delete_point user7 7 1)) 7 19723.
Proof.
  apply (delete_removes_from_route user7 7 19723 1
           (stop 1 40 (-74) (seconds 1704103200))).
  - change (get_route_points user7 7 19723)
      with [stop 1 40 (-74) (seconds 1704103200);
            stop 2 40 (-73) (seconds 1704103800)]. left.
  - reflexivity.
Defined.

(** X18 on two points one minute apart, for a point drawn off the line. *)
Lemma two_point_route_ignores_position_off :
  seconds 43230
  = fromisoformat (pt_recorded_at (stop 1 0 0 (seconds 43200)))
    + divide_and_round
        (fromisoformat (pt_recorded_at (stop 2 0 1 (seconds 43260)))
         - fromisoformat (pt_recorded_at (stop 1 0 0 (seconds 43200)))) 2.
Proof.
  apply (two_point_route_ignores_position sin_1 cos_1 atan2_1
           (stop 1 0 0 (seconds 43200)) (stop 2 0 1 (seconds 43260))
           5 9 (seconds 43230)).
  vm_compute. reflexivity.
Defined.
